(** * RubberTapAI-Server: leaf-disease inference over HTTP and WebSocket

    A shallow embedding of the three programs of the repository:
    - [server.js]: the WebSocket server ([ws.on("message")] and
      [predictLeafDisease]);
    - the first HTTP server ([POST /predict] without [tf.tidy]);
    - the second HTTP server ([POST /predict] with [tf.tidy]).

    JavaScript numbers that hold finite floats are embedded in [Q]: every
    finite float is a rational and [>] on finite floats is [>] on rationals.
    [x / 255.0] is the exact quotient (the float quotient is its rounding,
    and rounding is monotone, so bounds proved here carry over).  NaN and
    infinities are outside the model. *)

From Stdlib Require Import ZArith QArith Qminmax String Ascii List Lia.
From stdpp Require Import base gmap strings list fin_maps pretty.

Local Open Scope string_scope.

(** ** JavaScript errors and the effect monad *)

(** [new Error(msg)]: only [err.message] is ever read by the programs. *)
Record Error := mkError { message : string }.

Inductive Outcome (A : Type) : Type :=
| Returned (a : A)
| Thrown (e : Error).
Arguments Returned {A} a.
Arguments Thrown {A} e.

Definition Buffer := list Byte.byte.

(** One entry of the [predictions] array.  [className] is
    [classNames[index]], which is [undefined] ([None]) past the end of the
    label array. *)
Record Prediction := mkPrediction {
  className : option string;
  probability : Q
}.

(** Messages the WebSocket server sends: [{type: "prediction", ...}] and
    [{type: "error", error, predictions}]. *)
Inductive Outbound :=
| PredictionMsg (predictions : list Prediction) (topPrediction : Prediction)
                (confidence : string) (timestamp : string)
| ErrorMsg (error : string) (predictions : list Prediction).

(** Calls made on the [fs] module, in program order. *)
Inductive FsCall :=
| ReadFileSync (path : string)
| ExistsSync (path : string)
| Unlink (path : string).

(** What the handlers can observe and change outside their own locals:
    the TensorFlow engine (live tensors, id counter, stack of [tidy]
    scopes), the upload directory, the error console ([console.error] and
    [console.warn]; the informational [console.log] lines are left out),
    and the client connection [ws] of the WebSocket handler. *)
Record World := mkWorld {
  live : gset nat;
  next_id : nat;
  scopes : list (gset nat);
  files : gmap string Buffer;
  fs_calls : list FsCall;
  console : list string;
  ws_open : bool;
  ws_sent : list Outbound
}.

Definition M (A : Type) : Type := World -> Outcome A * World.

Definition ret {A} (a : A) : M A := fun w => (Returned a, w).
Definition throw {A} (e : Error) : M A := fun w => (Thrown e, w).
Definition bind {A B} (m : M A) (k : A -> M B) : M B :=
  fun w => match m w with
           | (Returned a, w') => k a w'
           | (Thrown e, w') => (Thrown e, w')
           end.
(** A step that touches nothing outside: it only returns or throws. *)
Definition lift {A} (o : Outcome A) : M A := fun w => (o, w).
(** [try { body } catch (err) { handler }] *)
Definition try_catch {A} (body : M A) (handler : Error -> M A) : M A :=
  fun w => match body w with
           | (Returned a, w') => (Returned a, w')
           | (Thrown e, w') => handler e w'
           end.

Notation "'let!' x ':=' m 'in' k" := (bind m (fun x => k))
  (at level 10, x name, m at level 100, k at level 200).
Notation "'do!' m 'in' k" := (bind m (fun _ => k))
  (at level 10, m at level 100, k at level 200).

Definition console_error (line : string) : M unit :=
  fun w => (Returned tt,
            mkWorld (live w) (next_id w) (scopes w) (files w) (fs_calls w)
                    (console w ++ [line]) (ws_open w) (ws_sent w)).

(** [console.warn] writes to the same stream. *)
Definition console_warn (line : string) : M unit := console_error line.

(** ** The TensorFlow engine *)

Module Tf.

(** A tensor handle: its engine id, shape and flat row-major values. *)
Record Tensor := mkTensor {
  tid : nat;
  shape : list nat;
  values : list Q
}.

(** Every op result is registered with the engine: it becomes live and is
    tracked by the innermost open scope, when there is one. *)
Definition track (id : nat) (ss : list (gset nat)) : list (gset nat) :=
  match ss with
  | [] => []
  | s :: rest => ({[id]} ∪ s) :: rest
  end.

Definition makeTensor (sh : list nat) (vs : list Q) : M Tensor :=
  fun w =>
    let id := next_id w in
    (Returned (mkTensor id sh vs),
     mkWorld ({[id]} ∪ live w) (S id) (track id (scopes w))
             (files w) (fs_calls w) (console w) (ws_open w) (ws_sent w)).

Definition startScope : M unit :=
  fun w => (Returned tt,
            mkWorld (live w) (next_id w) (∅ :: scopes w)
                    (files w) (fs_calls w) (console w) (ws_open w) (ws_sent w)).

(** [endScope(result)]: dispose every tensor of the innermost scope that is
    not part of the result; the kept ones move to the parent scope. *)
Definition endScope (keep : gset nat) : M unit :=
  fun w =>
    match scopes w with
    | [] => (Returned tt, w)
    | s :: rest =>
        (Returned tt,
         mkWorld (live w ∖ (s ∖ keep)) (next_id w)
                 (match rest with
                  | [] => []
                  | p :: rest' => ((s ∩ keep) ∪ p) :: rest'
                  end)
                 (files w) (fs_calls w) (console w) (ws_open w) (ws_sent w))
    end.

(** [tf.tidy(fn)] for an [fn] whose result holds no tensor (a plain object
    or a typed array), which is how all three programs use it.  The engine
    runs [fn] between [startScope] and [endScope], and ends the scope on
    the exceptional path too before rethrowing. *)
Definition tidy {A} (fn : M A) : M A :=
  do! startScope in
  try_catch (let! r := fn in do! endScope ∅ in ret r)
            (fun ex => do! endScope ∅ in throw ex).

(** *** Kernels on tensor data *)

(** Source pixel of output pixel [i] for [resizeNearestNeighbor] with the
    defaults [alignCorners = false], [halfPixelCenters = false]. *)
Definition nearest (old new i : nat) : nat :=
  Nat.min (old - 1) (i * old / new).

Definition resize_plane (h w c H W : nat) (vs : list Q) (b : nat) : list Q :=
  flat_map (fun r =>
    flat_map (fun col =>
      List.map (fun d =>
        nth (((b * h + nearest h H r) * w + nearest w W col) * c + d) vs 0%Q)
        (seq 0 c))
      (seq 0 W))
    (seq 0 H).

(** Rank 3 is one image, rank 4 a batch of images; any other rank is
    rejected by the op. *)
Definition resize_data (sh : list nat) (vs : list Q) (H W : nat)
  : option (list nat * list Q) :=
  match sh with
  | [h; w; c] => Some ([H; W; c], resize_plane h w c H W vs 0)
  | [n; h; w; c] =>
      Some ([n; H; W; c], flat_map (resize_plane h w c H W vs) (seq 0 n))
  | _ => None
  end.

Definition div_data (c : Q) (vs : list Q) : list Q :=
  List.map (fun v => (v / c)%Q) vs.

End Tf.

(** ** What the programs take from outside

    The image decoder, the clock, number formatting, JSON parsing and
    base64 decoding are library or platform code; a failing [unlink] is
    decided by the operating system. *)

#[local] Set Warnings "-register-all".
Inductive JSValue :=
| JNull
| JBool (b : bool)
| JNum (q : Q)
| JStr (s : string)
| JArr (items : list JSValue)
| JObj (fields : list (string * JSValue)).

Record Env := mkEnv {
  (** [tf.node.decodeImage(buffer, channels)]: shape and values, or the
      decoder's error *)
  decode_image : Buffer -> nat -> Outcome (list nat * list Q);
  (** [Some err] when the operating system refuses to delete the path *)
  unlink_fault : string -> option Error;
  (** [JSON.parse(data)] *)
  JSON_parse : string -> Outcome JSValue;
  (** [Buffer.from(text, "base64")], which never throws on a string *)
  from_base64 : string -> Buffer;
  (** [new Date().toISOString()] *)
  now_iso : string;
  (** [x.toFixed(2)] *)
  toFixed2 : Q -> string
}.

(** A loaded [tf.LayersModel]: the forward pass of a classifier maps a
    batch to one row of scores per image, or throws. *)
Definition Model := Tf.Tensor -> Outcome (list (list Q)).

Module TfOps.
Import Tf.

Section WithEnv.
Variable env : Env.

Definition decodeImage (buffer : Buffer) (channels : nat) : M Tensor :=
  let! decoded := lift (decode_image env buffer channels) in
  makeTensor (fst decoded) (snd decoded).

Definition resizeNearestNeighbor (t : Tensor) (H W : nat) : M Tensor :=
  match resize_data (shape t) (values t) H W with
  | None =>
      throw (mkError "Error in resizeNearestNeighbor: x must be rank 3 or 4")
  | Some (sh, vs) => makeTensor sh vs
  end.

(** [t.div(c)] for a number [c].  Like every op, it runs in a scope of
    its own that keeps its result only: the number is turned into a
    scalar tensor, the quotient is produced, and the scalar is disposed
    when the op returns. *)
Definition div (t : Tensor) (c : Q) : M Tensor :=
  do! startScope in
  do! makeTensor [] [c] in
  let! quotient := makeTensor (shape t) (div_data c (values t)) in
  do! endScope {[tid quotient]} in
  ret quotient.

(** [t.expandDims()], axis 0 *)
Definition expandDims (t : Tensor) : M Tensor :=
  makeTensor (1 :: shape t) (values t).

(** [tf.node.decodeImage(buffer, 3).resizeNearestNeighbor([224, 224])
      .div(255.0).expandDims()] *)
Definition preprocess (buffer : Buffer) : M Tensor :=
  let! decoded := decodeImage buffer 3 in
  let! resized := resizeNearestNeighbor decoded 224 224 in
  let! scaled := div resized 255 in
  expandDims scaled.

(** [model.predict(tensor)]: the output tensor has shape
    [batch, classes]. *)
Definition predict (model : Model) (t : Tensor) : M Tensor :=
  let! rows := lift (model t) in
  makeTensor [length rows; length (List.hd [] rows)] (concat rows).

(** [prediction.dataSync()] *)
Definition dataSync (t : Tensor) : list Q := values t.

(** [(await prediction.array())[0]] on a rank-2 tensor: the first row, or
    [undefined] ([None]) when the batch is empty. *)
Definition array_0 (t : Tensor) : option (list Q) :=
  match shape t with
  | [S _; n] => Some (firstn n (values t))
  | _ => None
  end.

End WithEnv.
End TfOps.

(** ** The file system *)

Module Fs.
Section WithEnv.
Variable env : Env.

Definition record_call (c : FsCall) (w : World) : World :=
  mkWorld (live w) (next_id w) (scopes w) (files w) (fs_calls w ++ [c])
          (console w) (ws_open w) (ws_sent w).

Definition ENOENT (syscall path : string) : Error :=
  mkError ("ENOENT: no such file or directory, " +:+ syscall +:+ " '"
           +:+ path +:+ "'").

(** [fs.readFileSync(path)] *)
Definition readFileSync (path : string) : M Buffer :=
  fun w =>
    let w' := record_call (ReadFileSync path) w in
    match files w !! path with
    | Some content => (Returned content, w')
    | None => (Thrown (ENOENT "open" path), w')
    end.

(** [fs.existsSync(path)] *)
Definition existsSync (path : string) : M bool :=
  fun w =>
    (Returned (bool_decide (is_Some (files w !! path))),
     record_call (ExistsSync path) w).

(** [await fs.promises.unlink(path)]: rejects when the path is absent or
    the system refuses; removes the file otherwise. *)
Definition unlink (path : string) : M unit :=
  fun w =>
    let w' := record_call (Unlink path) w in
    match files w !! path with
    | None => (Thrown (ENOENT "unlink" path), w')
    | Some _ =>
        match unlink_fault env path with
        | Some err => (Thrown err, w')
        | None =>
            (Returned tt,
             mkWorld (live w') (next_id w') (scopes w') (delete path (files w'))
                     (fs_calls w') (console w') (ws_open w') (ws_sent w'))
        end
    end.

End WithEnv.

(** Number of [unlink] calls made on [path]. *)
Definition unlink_count (path : string) (calls : list FsCall) : nat :=
  length (List.filter (fun c => match c with
                                | Unlink p => bool_decide (p = path)
                                | _ => false
                                end) calls).

End Fs.

(** ** Labelling and ranking, as written in all three programs *)

Module Predictor.

Definition classNames : list string :=
  ["Oidium Heveae"; "Healthy"; "Anthracnose"; "Leaf Spot"].

(** [probabilities.map((prob, index) =>
      ({ className: classNames[index], probability: prob }))] *)
Definition predictions (probabilities : list Q) : list Prediction :=
  imap (fun index prob => mkPrediction (classNames !! index) prob)
       probabilities.

(** The seed of the reduction, [{ className: "", probability: 0 }]. *)
Definition seed : Prediction := mkPrediction (Some "") 0.

(** [(max, p) => (p.probability > max.probability ? p : max)] *)
Definition pick (max p : Prediction) : Prediction :=
  if Qlt_le_dec (probability max) (probability p) then p else max.

(** [predictions.reduce(pick, seed)] *)
Definition topPrediction (preds : list Prediction) : Prediction :=
  fold_left pick preds seed.

End Predictor.

(** ** The HTTP servers *)

Module Http.

(** [req.file] as the upload middleware leaves it. *)
Record UploadedFile := mkUploadedFile {
  path : string;
  originalname : string;
  filename : string
}.

(** The [response] object of the success path. *)
Record PredictionResult := mkPredictionResult {
  tfjsVersion : string;
  tmVersion : string;
  modelName : string;
  labels : list string;
  predictions : list Prediction;
  topPrediction : Prediction;
  imageSize : nat;
  timeStamp : string
}.

Inductive Body :=
| ErrorBody (error : string)
| FailureBody (error details : string)
| ResultBody (result : PredictionResult).

(** [res.status(code).json(body)]; [res.json(body)] answers 200. *)
Record Response := mkResponse { status : nat; body : Body }.

Section WithEnv.
Variable env : Env.

Definition not_ready : Response :=
  mkResponse 503 (ErrorBody "Model not loaded yet. Please try again later.").

Definition no_image : Response :=
  mkResponse 400 (ErrorBody "No image uploaded").

(** From the length check to the [response] object: the same text in
    both servers. *)
Definition respond (probabilities : list Q) : M PredictionResult :=
  let classNames := Predictor.classNames in
  do! (if bool_decide (length probabilities ≠ length classNames)
       then throw (mkError ("Expected " +:+ pretty (length classNames)
                            +:+ " output classes but got "
                            +:+ pretty (length probabilities)))
       else ret tt) in
  let predictions := Predictor.predictions probabilities in
  let topPrediction := Predictor.topPrediction predictions in
  do! (if Qlt_le_dec (probability topPrediction) (6 # 10)
       then console_warn "Low confidence prediction"
       else ret tt) in
  ret (mkPredictionResult "1.7.4" "2.4.10" "tm-my-image-model" classNames
                          predictions topPrediction 224 (now_iso env)).

(** The success path's [try { await fs.promises.unlink(imagePath) }
    catch (err) { console.error(...) }]. *)
Definition delete_uploaded (imagePath : string) : M unit :=
  try_catch (Fs.unlink env imagePath)
            (fun err =>
               console_error ("Error deleting uploaded file: "
                              +:+ message err)).

(** The outer [catch (err)] block: cleanup on failure, then the 500. *)
Definition on_failure (imagePath : string) (err : Error) : M Response :=
  do! console_error ("Prediction error: " +:+ message err) in
  let! present := Fs.existsSync imagePath in
  do! (if present
       then try_catch (Fs.unlink env imagePath)
              (fun err2 =>
                 console_error ("Failed to delete file after error: "
                                +:+ message err2))
       else ret tt) in
  ret (mkResponse 500 (FailureBody "Prediction failed" (message err))).

(** [try { prediction = model.predict(tensor) } catch (err) { throw new
    Error("Model prediction failed: " + err.message) }] *)
Definition guarded_predict (model : Model) (tensor : Tf.Tensor)
  : M Tf.Tensor :=
  try_catch (TfOps.predict model tensor)
            (fun err =>
               throw (mkError ("Model prediction failed: "
                               +:+ message err))).

End WithEnv.
End Http.

(** *** First server: no scope around the tensor operations *)

Module Http1.
Import Http.
Section WithEnv.
Variable env : Env.

(** The [try] block of the handler. *)
Definition process (model : Model) (imagePath : string) : M Response :=
  let! buffer := Fs.readFileSync imagePath in
  let! tensor := TfOps.preprocess env buffer in
  let! prediction := guarded_predict model tensor in
  let! probabilities :=
    match TfOps.array_0 prediction with
    | Some row => ret row
    | None =>
        throw (mkError
                 "Cannot read properties of undefined (reading 'length')")
    end in
  let! response := respond env probabilities in
  do! delete_uploaded env imagePath in
  ret (mkResponse 200 (ResultBody response)).

(** [app.post("/predict", upload.single("image"), async (req, res) => ...)]
    with the module variable [model] and [req.file]. *)
Definition post_predict (model : option Model) (file : option UploadedFile)
  : M Response :=
  match model with
  | None => ret not_ready
  | Some model =>
      match file with
      | None => ret no_image
      | Some f =>
          let imagePath := path f in
          try_catch (process model imagePath) (on_failure env imagePath)
      end
  end.

End WithEnv.
End Http1.

(** *** Second server: the tensor operations run inside [tf.tidy] *)

Module Http2.
Import Http.
Section WithEnv.
Variable env : Env.

Definition process (model : Model) (imagePath : string) : M Response :=
  let! buffer := Fs.readFileSync imagePath in
  let! probabilities :=
    Tf.tidy (let! tensor := TfOps.preprocess env buffer in
             let! prediction := guarded_predict model tensor in
             ret (TfOps.dataSync prediction)) in
  let probabilitiesArray := probabilities in
  let! response := respond env probabilitiesArray in
  do! delete_uploaded env imagePath in
  ret (mkResponse 200 (ResultBody response)).

Definition post_predict (model : option Model) (file : option UploadedFile)
  : M Response :=
  match model with
  | None => ret not_ready
  | Some model =>
      match file with
      | None => ret no_image
      | Some f =>
          let imagePath := path f in
          try_catch (process model imagePath) (on_failure env imagePath)
      end
  end.

End WithEnv.
End Http2.

(** ** The WebSocket server *)

Module Stream.
Section WithEnv.
Variable env : Env.

(** The object [predictLeafDisease] resolves to. *)
Record Result := mkResult {
  predictions : list Prediction;
  topPrediction : Prediction;
  confidence : string;
  timestamp : string
}.

(** The body of the [try] inside [tf.tidy]. *)
Definition classify (model : Model) (buffer : Buffer) : M Result :=
  let! tensor := TfOps.preprocess env buffer in
  let! prediction := TfOps.predict model tensor in
  let probabilities := TfOps.dataSync prediction in
  let predictions := Predictor.predictions probabilities in
  let topPrediction := Predictor.topPrediction predictions in
  ret (mkResult predictions topPrediction
                (toFixed2 env (probability topPrediction * 100)%Q)
                (now_iso env)).

(** [async function predictLeafDisease(buffer)] with the module variable
    [model]. *)
Definition predictLeafDisease (model : option Model) (buffer : Buffer)
  : M Result :=
  match model with
  | None => throw (mkError "Model not loaded yet")
  | Some model =>
      Tf.tidy
        (try_catch (classify model buffer)
           (fun err =>
              throw (mkError ("Prediction failed: " +:+ message err))))
  end.

(** [value.key] for the two keys the handler reads, [type] and
    [frameData]: reading from [null] throws, an object answers with its
    own field, and no other JSON value has such a property
    ([undefined], [None]). *)
Definition get_prop (value : JSValue) (key : string)
  : Outcome (option JSValue) :=
  match value with
  | JNull =>
      Thrown (mkError ("Cannot read properties of null (reading '"
                       +:+ key +:+ "')"))
  | JObj fields =>
      Returned (snd <$> List.find (fun kv => String.eqb (fst kv) key) fields)
  | _ => Returned None
  end.

(** [text.split(",")] *)
Fixpoint split_comma (text : string) : list string :=
  match text with
  | EmptyString => [EmptyString]
  | String ch rest =>
      if Ascii.eqb ch "," then EmptyString :: split_comma rest
      else match split_comma rest with
           | piece :: pieces => String ch piece :: pieces
           | [] => [String ch EmptyString]
           end
  end.

(** [message.frameData.split(",")[1]] *)
Definition frame_payload (message : JSValue) : Outcome (option string) :=
  match get_prop message "frameData" with
  | Thrown e => Thrown e
  | Returned (Some (JStr text)) => Returned (split_comma text !! 1)
  | Returned None =>
      Thrown (mkError
                "Cannot read properties of undefined (reading 'split')")
  | Returned (Some JNull) =>
      Thrown (mkError "Cannot read properties of null (reading 'split')")
  | Returned (Some _) =>
      Thrown (mkError "message.frameData.split is not a function")
  end.

(** [Buffer.from(base64Data, "base64")]: [undefined] is rejected. *)
Definition Buffer_from (base64Data : option string) : Outcome Buffer :=
  match base64Data with
  | Some text => Returned (from_base64 env text)
  | None =>
      Thrown (mkError "The first argument must be of type string or an instance of Buffer, ArrayBuffer, or Array or an Array-like Object. Received undefined")
  end.

(** [ws.send(JSON.stringify(msg))] *)
Definition ws_send (msg : Outbound) : M unit :=
  fun w => (Returned tt,
            mkWorld (live w) (next_id w) (scopes w) (files w) (fs_calls w)
                    (console w) (ws_open w) (ws_sent w ++ [msg])).

(** [message.type === "frame"] *)
Definition is_frame (type : option JSValue) : bool :=
  match type with
  | Some (JStr s) => String.eqb s "frame"
  | _ => false
  end.

(** The [try] block of the message handler. *)
Definition handle (model : option Model) (data : string) : M unit :=
  let! message := lift (JSON_parse env data) in
  let! type := lift (get_prop message "type") in
  if is_frame type then
    let! base64Data := lift (frame_payload message) in
    let! buffer := lift (Buffer_from base64Data) in
    let! prediction := predictLeafDisease model buffer in
    ws_send (PredictionMsg (predictions prediction)
                           (topPrediction prediction)
                           (confidence prediction)
                           (timestamp prediction))
  else ret tt.

(** [ws.on("message", async (data) => { try {...} catch (err) {...} })] *)
Definition on_message (model : option Model) (data : string) : M unit :=
  try_catch (handle model data)
    (fun err =>
       do! console_error ("Error processing frame: " +:+ message err) in
       ws_send (ErrorMsg (message err) [])).

End WithEnv.
End Stream.

(** ** Sample environment

    A small concrete world to run the handlers on: a decoder for a toy
    one-pixel format (the first byte is the grey level), a classifier with
    constant scores, a file system that can refuse one deletion. *)

Module Sample.

Definition grey (b : Byte.byte) : Q := inject_Z (Z.of_N (Byte.to_N b)).

Definition decode (buffer : Buffer) (channels : nat)
  : Outcome (list nat * list Q) :=
  match buffer with
  | [] => Thrown (mkError "Expected image (BMP, JPEG, PNG, or GIF), but got unsupported image type")
  | b :: _ => Returned ([1; 1; channels], repeat (grey b) channels)
  end.

(** Parses the text [null] and one-word messages: the word is the message
    type, and a [frame] carries a fixed payload. *)
Definition parse (data : string) : Outcome JSValue :=
  if String.eqb data "null" then Returned JNull
  else if String.eqb data "" then
    Thrown (mkError "Unexpected end of JSON input")
  else Returned (JObj [("type", JStr data);
                       ("frameData", JStr "data:image/png;base64,eA==")]).

Definition base64 (text : string) : Buffer :=
  if String.eqb text "eA==" then [Byte.x78] else [].

Definition env (locked : option string) : Env :=
  mkEnv decode
        (fun p => if bool_decide (Some p = locked)
                  then Some (mkError "EPERM: operation not permitted, unlink")
                  else None)
        parse base64 "2025-01-01T00:00:00.000Z" (fun _ => "70.00").

(** The model of the spec's scenario, and one with a three-class head. *)
Definition model4 : Model :=
  fun _ => Returned [[1 # 10; 7 # 10; 1 # 10; 1 # 10]]%Q.
Definition model3 : Model :=
  fun _ => Returned [[2 # 10; 5 # 10; 3 # 10]]%Q.
Definition broken_model : Model :=
  fun _ => Thrown (mkError "expected input to have shape [null,224,224,3]").

Definition upload : Http.UploadedFile :=
  Http.mkUploadedFile "uploads/3f2a" "leaf.png" "3f2a".

(** A fresh process, with or without the uploaded file on disk. *)
Definition world0 (fs : gmap string Buffer) : World :=
  mkWorld ∅ 0 [] fs [] [] true [].

Definition stored : gmap string Buffer := {[ "uploads/3f2a" := [Byte.x78] ]}.

End Sample.

(** * Properties *)

(** ** Ranking: the reduction keeps the first maximum *)

Module PredictorFacts.
Import Predictor.

(** [m] is the largest probability of a non-empty list: an upper bound
    that some entry attains. *)
Definition is_maximum (m : Q) (preds : list Prediction) : Prop :=
  Forall (fun p => (probability p <= m)%Q) preds /\
  Exists (fun p => (probability p == m)%Q) preds.

Lemma pick_cases (max p : Prediction) :
  ((probability max < probability p)%Q /\ pick max p = p) \/
  ((probability p <= probability max)%Q /\ pick max p = max).
Proof.
  unfold pick. destruct (Qlt_le_dec (probability max) (probability p)); auto.
Qed.

(** The reduction from any accumulator: either nothing beats the
    accumulator, or the result is the first entry that beats everything
    before it and is not beaten afterwards. *)
Lemma reduce_pick (preds : list Prediction) : forall acc,
  let r := fold_left pick preds acc in
  (r = acc /\ Forall (fun p => (probability p <= probability acc)%Q) preds) \/
  (exists before after,
      preds = (before ++ r :: after)%list /\
      (probability acc < probability r)%Q /\
      Forall (fun p => (probability p < probability r)%Q) before /\
      Forall (fun p => (probability p <= probability r)%Q) after).
Proof.
  induction preds as [|a rest IH]; intros acc; simpl.
  - left. split; [reflexivity | constructor].
  - destruct (pick_cases acc a) as [[Hlt ->] | [Hle ->]].
    + destruct (IH a) as [[Hr Hall] | (before & after & Heq & Hgt & Hb & Ha)].
      * right. exists [], rest. rewrite Hr. simpl.
        split; [reflexivity |]. split; [exact Hlt |].
        split; [constructor | exact Hall].
      * right. exists (a :: before), after.
        split; [simpl; f_equal; exact Heq |].
        split; [eapply Qlt_trans; eassumption |].
        split; [constructor; assumption | exact Ha].
    + destruct (IH acc) as [[Hr Hall] | (before & after & Heq & Hgt & Hb & Ha)].
      * left. split; [exact Hr | constructor; assumption].
      * right. exists (a :: before), after.
        split; [simpl; f_equal; exact Heq |].
        split; [exact Hgt |].
        split; [| exact Ha].
        constructor; [| exact Hb].
        eapply Qle_lt_trans; eassumption.
Qed.

Lemma Forall_app_cons_le (r : Prediction) (before after : list Prediction) :
  Forall (fun p => (probability p < probability r)%Q) before ->
  Forall (fun p => (probability p <= probability r)%Q) after ->
  Forall (fun p => (probability p <= probability r)%Q)
         (before ++ r :: after)%list.
Proof.
  intros Hb Ha. apply Forall_app. split.
  - eapply Forall_impl; [exact Hb |]. intros p Hp. simpl in Hp.
    apply Qlt_le_weak, Hp.
  - constructor; [apply Qle_refl | exact Ha].
Qed.

(** C4. On a PredictionSet (probabilities not below 0), the top
    prediction's probability is the maximum of the set; when that maximum
    is positive the top prediction is the first entry that attains it
    (every earlier entry is strictly smaller); and on an all-zero or empty
    set it is the seed [{className: "", probability: 0}]. *)
Theorem topPrediction_first_maximum (preds : list Prediction) :
  Forall (fun p => (0 <= probability p)%Q) preds ->
  let t := topPrediction preds in
  (preds <> [] -> is_maximum (probability t) preds) /\
  ((0 < probability t)%Q ->
     exists before after,
       preds = (before ++ t :: after)%list /\
       Forall (fun p => (probability p < probability t)%Q) before) /\
  (Forall (fun p => (probability p == 0)%Q) preds -> t = seed).
Proof.
  intros Hpos t. subst t. unfold topPrediction.
  destruct (reduce_pick preds seed)
    as [[Hr Hall] | (before & after & Heq & Hgt & Hb & Ha)].
  - rewrite Hr. simpl. split; [| split].
    + intros Hne. split; [exact Hall |].
      destruct preds as [|p rest]; [congruence |].
      apply Exists_cons_hd.
      apply Forall_inv in Hall. apply Forall_inv in Hpos.
      simpl in Hall. apply Qle_antisym; assumption.
    + intros H0. exfalso. revert H0. apply Qlt_irrefl.
    + reflexivity.
  - set (r := fold_left pick preds seed) in *. split; [| split].
    + intros _. split.
      * rewrite Heq. apply Forall_app_cons_le; assumption.
      * rewrite Heq. apply Exists_app. right. apply Exists_cons_hd.
        apply Qeq_refl.
    + intros _. exists before, after. split; assumption.
    + intros Hzero. exfalso.
      rewrite Heq in Hzero. apply Forall_app in Hzero as [_ Hz].
      apply Forall_inv in Hz. simpl in Hgt. rewrite Hz in Hgt.
      revert Hgt. apply Qlt_irrefl.
Qed.

Lemma topPrediction_first_maximum_witness :
  let preds := predictions [1 # 10; 7 # 10; 1 # 10; 7 # 10]%Q in
  Forall (fun p => (0 <= probability p)%Q) preds /\
  topPrediction preds = mkPrediction (Some "Healthy") (7 # 10) /\
  (preds <> [] -> is_maximum (probability (topPrediction preds)) preds).
Proof.
  intros preds. split; [| split].
  - repeat constructor; simpl; discriminate.
  - reflexivity.
  - apply (topPrediction_first_maximum preds).
    repeat constructor; simpl; discriminate.
Defined.

End PredictorFacts.

(** ** Stepping through the monad *)

Lemma bind_returned {A B} (m : M A) (k : A -> M B) w a w' :
  m w = (Returned a, w') -> bind m k w = k a w'.
Proof. intros H. unfold bind. rewrite H. reflexivity. Qed.

Lemma bind_thrown {A B} (m : M A) (k : A -> M B) w e w' :
  m w = (Thrown e, w') -> bind m k w = (Thrown e, w').
Proof. intros H. unfold bind. rewrite H. reflexivity. Qed.

Lemma try_returned {A} (body : M A) (handler : Error -> M A) w a w' :
  body w = (Returned a, w') -> try_catch body handler w = (Returned a, w').
Proof. intros H. unfold try_catch. rewrite H. reflexivity. Qed.

Lemma try_thrown {A} (body : M A) (handler : Error -> M A) w e w' :
  body w = (Thrown e, w') -> try_catch body handler w = handler e w'.
Proof. intros H. unfold try_catch. rewrite H. reflexivity. Qed.

(** ** The preprocessor: shape and range *)

Module PreprocessFacts.
Import Tf TfOps.

Arguments resize_plane : simpl never.
Arguments div_data : simpl never.







(** Each op returns its result under the next free id (the quotient
    under the one after the scalar's). *)
Lemma makeTensor_returns sh vs w :
  exists w',
    makeTensor sh vs w = (Returned (mkTensor (next_id w) sh vs), w') /\
    next_id w' = S (next_id w).
Proof. eexists. split; reflexivity. Qed.

Lemma div_returns t c w :
  exists w',
    div t c w
    = (Returned (mkTensor (S (next_id w)) (shape t) (div_data c (values t))),
       w') /\
    next_id w' = S (S (next_id w)).
Proof.
  unfold div, bind, startScope, makeTensor, endScope, ret. simpl.
  eexists. split; reflexivity.
Qed.

(** The chain on a decoded image that the resize accepts. *)
Lemma preprocess_resized env buffer sh pixels sh' vs' world :
  decode_image env buffer 3 = Returned (sh, pixels) ->
  resize_data sh pixels 224 224 = Some (sh', vs') ->
  exists world',
    preprocess env buffer world =
      (Returned (mkTensor (next_id world + 4) (1 :: sh') (div_data 255 vs')),
       world').
Proof.
  intros Hdec Hres. unfold preprocess.
  destruct (makeTensor_returns sh pixels world) as (w1 & Hrun1 & Hn1).
  erewrite bind_returned;
    [| unfold decodeImage, bind, lift; rewrite Hdec; exact Hrun1].
  destruct (makeTensor_returns sh' vs' w1) as (w2 & Hrun2 & Hn2).
  erewrite bind_returned;
    [| unfold resizeNearestNeighbor; cbn [shape values fst snd];
       rewrite Hres; exact Hrun2].
  destruct (div_returns (mkTensor (next_id w1) sh' vs') 255 w2)
    as (w3 & Hrun3 & Hn3).
  erewrite bind_returned by exact Hrun3.
  destruct (makeTensor_returns (1 :: sh') (div_data 255 vs') w3)
    as (w4 & Hrun4 & Hn4).
  exists w4. unfold expandDims. cbn [shape values]. rewrite Hrun4.
  replace (next_id w3) with (next_id world + 4) by lia. reflexivity.
Qed.

(** The chain on a decoded still image: four op results and the scalar
    [255.0] are given ids, and the last one is the batch tensor. *)
Lemma preprocess_still env buffer h w c pixels world :
  decode_image env buffer 3 = Returned ([h; w; c], pixels) ->
  exists world',
    preprocess env buffer world =
      (Returned (mkTensor (next_id world + 4) [1; 224; 224; c]
                   (div_data 255 (resize_plane h w c 224 224 pixels 0))),
       world').
Proof.
  intros Hdec.
  apply (preprocess_resized env buffer [h; w; c] pixels _ _ world Hdec).
  reflexivity.
Qed.


(** *** Which input pixel each output value comes from *)











End PreprocessFacts.

(** ** Frames: what a computation leaves alone *)

Module Frame.

(** [m] moves every world to one related to it by [R], however it ends. *)
Definition preserves (R : relation World) {A} (m : M A) : Prop :=
  forall w, R w (snd (m w)).

Section Rules.
Context (R : relation World) `{!PreOrder R}.

Lemma preserves_lift {A} (o : Outcome A) : preserves R (lift o).
Proof. intros w. reflexivity. Qed.

Lemma preserves_ret {A} (a : A) : preserves R (ret a).
Proof. intros w. reflexivity. Qed.

Lemma preserves_throw {A} (e : Error) : preserves R (@throw A e).
Proof. intros w. reflexivity. Qed.

Lemma preserves_bind {A B} (m : M A) (k : A -> M B) :
  preserves R m -> (forall a, preserves R (k a)) -> preserves R (bind m k).
Proof.
  intros Hm Hk w. unfold bind. specialize (Hm w).
  destruct (m w) as [[a | e] w']; simpl in *; [| exact Hm].
  etransitivity; [exact Hm | apply Hk].
Qed.

Lemma preserves_try {A} (body : M A) (handler : Error -> M A) :
  preserves R body -> (forall e, preserves R (handler e)) ->
  preserves R (try_catch body handler).
Proof.
  intros Hb Hh w. unfold try_catch. specialize (Hb w).
  destruct (body w) as [[a | e] w']; simpl in *; [exact Hb |].
  etransitivity; [exact Hb | apply Hh].
Qed.

Lemma preserves_if {A} (b : bool) (m1 m2 : M A) :
  preserves R m1 -> preserves R m2 -> preserves R (if b then m1 else m2).
Proof. destruct b; auto. Qed.

End Rules.

(** The upload directory and the log of [fs] calls are as before. *)
Definition fs_same (w w' : World) : Prop :=
  files w' = files w /\ fs_calls w' = fs_calls w.

(** The connection is as before: same state, nothing more sent. *)
Definition ws_same (w w' : World) : Prop :=
  ws_open w' = ws_open w /\ ws_sent w' = ws_sent w.

(** The connection is in the same state (messages may have been sent). *)
Definition ws_kept (w w' : World) : Prop := ws_open w' = ws_open w.

(** The engine is exactly as before: no tensor was created or released. *)
Definition tf_same (w w' : World) : Prop :=
  live w' = live w /\ next_id w' = next_id w /\ scopes w' = scopes w.

#[export] Instance fs_same_preorder : PreOrder fs_same.
Proof.
  split.
  - intros w. split; reflexivity.
  - intros w1 w2 w3 [H1 H2] [H3 H4]. split; congruence.
Qed.

#[export] Instance ws_same_preorder : PreOrder ws_same.
Proof.
  split.
  - intros w. split; reflexivity.
  - intros w1 w2 w3 [H1 H2] [H3 H4]. split; congruence.
Qed.

#[export] Instance ws_kept_preorder : PreOrder ws_kept.
Proof.
  split.
  - intros w. reflexivity.
  - intros w1 w2 w3 H1 H2. unfold ws_kept in *. congruence.
Qed.

#[export] Instance tf_same_preorder : PreOrder tf_same.
Proof.
  split.
  - intros w. repeat split; reflexivity.
  - intros w1 w2 w3 (H1 & H2 & H3) (H4 & H5 & H6). repeat split; congruence.
Qed.

End Frame.

(** ** The engine: what a scope releases *)

Module EngineFacts.
Import Tf Frame.

(** Tensor ids are handed out in increasing order, so every live tensor
    has an id below the counter. *)
Definition fresh (w : World) : Prop :=
  forall i, i ∈ live w -> i < next_id w.

(** From a world that satisfies the invariant, [w'] is [w] after some
    tensors were created and none of the earlier ones released. *)
Definition grows (w w' : World) : Prop :=
  fresh w ->
  exists new : gset nat,
    (forall i, i ∈ new -> next_id w <= i < next_id w') /\
    next_id w <= next_id w' /\
    live w' = live w ∪ new /\
    scopes w' = match scopes w with
                | [] => []
                | s :: rest => (new ∪ s) :: rest
                end.

(** [w'] has the live tensors and the scopes of [w]. *)
Definition same_engine (w w' : World) : Prop :=
  live w' = live w /\ scopes w' = scopes w /\ next_id w <= next_id w'.

(** A computation that leaves no tensor behind. *)
Definition balanced {A} (m : M A) : Prop :=
  forall w, fresh w -> same_engine w (snd (m w)).

#[export] Instance grows_preorder : PreOrder grows.
Proof.
  split.
  - intros w _. exists ∅.
    split; [intros i Hi; exfalso; revert Hi; apply not_elem_of_empty |].
    split; [lia |]. split; [symmetry; apply union_empty_r_L |].
    destruct (scopes w); [reflexivity |]. f_equal.
    symmetry. apply union_empty_l_L.
  - intros w1 w2 w3 H12 H23 Hf1.
    destruct (H12 Hf1) as (n1 & Hr1 & Hle1 & Hl1 & Hs1).
    assert (fresh w2) as Hf2.
    { intros i. rewrite Hl1. intros [Hi | Hi]%elem_of_union.
      - specialize (Hf1 i Hi). lia.
      - specialize (Hr1 i Hi). lia. }
    destruct (H23 Hf2) as (n2 & Hr2 & Hle2 & Hl2 & Hs2).
    exists (n1 ∪ n2). split; [| split; [lia | split]].
    + intros i [Hi | Hi]%elem_of_union.
      * specialize (Hr1 i Hi). lia.
      * specialize (Hr2 i Hi). lia.
    + rewrite Hl2, Hl1. symmetry. apply (assoc_L (∪)).
    + rewrite Hs2, Hs1. destruct (scopes w1); [reflexivity |].
      f_equal. rewrite (comm_L (∪) n1 n2). apply (assoc_L (∪)).
Qed.

Lemma same_engine_refl w : same_engine w w.
Proof. repeat split. lia. Qed.

Lemma same_engine_trans w1 w2 w3 :
  same_engine w1 w2 -> same_engine w2 w3 -> same_engine w1 w3.
Proof.
  intros (Hl1 & Hs1 & Hn1) (Hl2 & Hs2 & Hn2).
  repeat split; [congruence | congruence | lia].
Qed.

Lemma same_engine_fresh w w' : fresh w -> same_engine w w' -> fresh w'.
Proof.
  intros Hf (Hl & _ & Hn) i Hi. rewrite Hl in Hi. specialize (Hf i Hi). lia.
Qed.

Lemma grows_makeTensor sh vs : preserves grows (makeTensor sh vs).
Proof.
  intros w _. unfold makeTensor. exists {[next_id w]}. simpl.
  split; [| split; [lia | split]].
  - intros i ->%elem_of_singleton. lia.
  - apply (comm_L (∪)).
  - unfold track. destruct (scopes w); reflexivity.
Qed.

(** [t.div(c)] leaves one tensor more, the quotient: the scalar it made
    on the way is gone when it returns. *)
Lemma grows_div t c : preserves grows (TfOps.div t c).
Proof.
  intros w Hf. exists {[S (next_id w)]}.
  unfold TfOps.div, bind, startScope, makeTensor, endScope, ret. simpl.
  split; [| split; [lia | split]].
  - intros i ->%elem_of_singleton. lia.
  - apply set_eq. intros i.
    rewrite elem_of_difference, !elem_of_union, elem_of_difference,
      !elem_of_union, !elem_of_singleton, elem_of_empty.
    split.
    + intros [[-> | [-> | Hi]] Hn]; [right; reflexivity | | left; exact Hi].
      exfalso. apply Hn. split; [tauto | lia].
    + intros [Hi | ->].
      * split; [tauto |]. intros [[Hs | [Hs | []]] _];
          specialize (Hf i Hi); lia.
      * split; [tauto |]. intros [_ Hn]. apply Hn. reflexivity.
  - destruct (scopes w); [reflexivity |]. f_equal.
    apply set_eq. intros i.
    rewrite !elem_of_union, elem_of_intersection, !elem_of_union,
      !elem_of_singleton, elem_of_empty.
    split; [intros [[_ ->] | Hi]; tauto |].
    intros [-> | Hi]; [left; split; tauto | right; exact Hi].
Qed.

(** A computation that does not touch the engine is balanced. *)
Lemma tf_same_balanced {A} (m : M A) : preserves tf_same m -> balanced m.
Proof.
  intros Hm w _. destruct (Hm w) as (Hl & Hn & Hs).
  repeat split; [exact Hl | exact Hs | lia].
Qed.

Lemma balanced_bind {A B} (m : M A) (k : A -> M B) :
  balanced m -> (forall a, balanced (k a)) -> balanced (bind m k).
Proof.
  intros Hm Hk w Hf. unfold bind. specialize (Hm w Hf).
  destruct (m w) as [[a | e] w']; simpl in *; [| exact Hm].
  eapply same_engine_trans; [exact Hm |].
  apply Hk. eapply same_engine_fresh; eassumption.
Qed.

Lemma balanced_try {A} (body : M A) (handler : Error -> M A) :
  balanced body -> (forall e, balanced (handler e)) ->
  balanced (try_catch body handler).
Proof.
  intros Hb Hh w Hf. unfold try_catch. specialize (Hb w Hf).
  destruct (body w) as [[a | e] w']; simpl in *; [exact Hb |].
  eapply same_engine_trans; [exact Hb |].
  apply Hh. eapply same_engine_fresh; eassumption.
Qed.

(** The world after [tf.tidy(fn)] is the world after [fn] with the scope
    closed, and the outcome is that of [fn]. *)
Lemma tidy_run {A} (fn : M A) w :
  fst (tidy fn w) = fst (fn (snd (startScope w))) /\
  snd (tidy fn w) = snd (endScope ∅ (snd (fn (snd (startScope w))))).
Proof.
  unfold tidy, bind, try_catch. simpl.
  destruct (fn _) as [[r | e] w2]; simpl.
  - destruct (endScope ∅ w2) as [[[] | e'] w3] eqn:He; simpl; auto.
    unfold endScope in He. destruct (scopes w2); discriminate.
  - destruct (endScope ∅ w2) as [[[] | e'] w3] eqn:He; simpl; auto.
    unfold endScope in He. destruct (scopes w2); discriminate.
Qed.

(** Whatever tensors [fn] creates, [tf.tidy(fn)] has released them all
    when it returns or throws. *)
Lemma tidy_balanced {A} (fn : M A) : preserves grows fn -> balanced (tidy fn).
Proof.
  intros Hfn w Hf. destruct (tidy_run fn w) as [_ ->].
  pose proof (Hfn (snd (startScope w)) Hf) as (new & Hr & Hle & Hl & Hs).
  set (w2 := snd (fn (snd (startScope w)))) in *. clearbody w2.
  simpl in Hr, Hle, Hl, Hs.
  unfold endScope. rewrite Hs. unfold same_engine. simpl.
  split; [| split; [| exact Hle]].
  - rewrite difference_empty_L, union_empty_r_L, Hl. apply set_eq. intros i.
    rewrite elem_of_difference, elem_of_union.
    split; [intros [[Hi | Hi] Hn]; [exact Hi | contradiction] |].
    intros Hi. split; [left; exact Hi |].
    intros Hi'. specialize (Hr i Hi'). specialize (Hf i Hi). lia.
  - destruct (scopes w); [reflexivity |]. f_equal.
    rewrite intersection_empty_r_L. apply union_empty_l_L.
Qed.

(** [tf.tidy] leaves everything but the engine to its body. *)
Lemma tidy_preserves (R : relation World) `{!PreOrder R} {A} (fn : M A) :
  preserves R startScope -> preserves R (endScope ∅) ->
  preserves R fn -> preserves R (tidy fn).
Proof.
  intros Hs He Hfn. unfold tidy.
  apply preserves_bind; [assumption | exact Hs |]. intros _.
  apply preserves_try; [assumption | |].
  - apply preserves_bind; [assumption | exact Hfn |]. intros r.
    apply preserves_bind; [assumption | exact He |]. intros _.
    apply preserves_ret; assumption.
  - intros ex. apply preserves_bind; [assumption | exact He |]. intros _.
    apply preserves_throw; assumption.
Qed.

End EngineFacts.

(** ** Frames of the primitive operations and of the pipeline *)

Module OpFacts.
Import Tf TfOps Frame EngineFacts.

(** A primitive that rebuilds the world field by field. *)
Ltac frame_prim :=
  let w := fresh "w" in
  intros w; cbv beta delta [makeTensor startScope endScope console_error
    console_warn Fs.readFileSync Fs.existsSync Fs.unlink Fs.record_call
    Stream.ws_send fs_same ws_same ws_kept tf_same];
  repeat case_match; simpl; repeat split; reflexivity.

Create HintDb frame discriminated.

Lemma fs_same_makeTensor sh vs : preserves fs_same (makeTensor sh vs).
Proof. frame_prim. Qed.
Lemma ws_same_makeTensor sh vs : preserves ws_same (makeTensor sh vs).
Proof. frame_prim. Qed.
Lemma fs_same_startScope : preserves fs_same startScope.
Proof. frame_prim. Qed.
Lemma ws_same_startScope : preserves ws_same startScope.
Proof. frame_prim. Qed.
Lemma fs_same_endScope keep : preserves fs_same (endScope keep).
Proof. frame_prim. Qed.
Lemma ws_same_endScope keep : preserves ws_same (endScope keep).
Proof. frame_prim. Qed.
Lemma fs_same_console line : preserves fs_same (console_error line).
Proof. frame_prim. Qed.
Lemma ws_same_console line : preserves ws_same (console_error line).
Proof. frame_prim. Qed.
Lemma tf_same_console line : preserves tf_same (console_error line).
Proof. frame_prim. Qed.
Lemma fs_same_warn line : preserves fs_same (console_warn line).
Proof. frame_prim. Qed.
Lemma tf_same_warn line : preserves tf_same (console_warn line).
Proof. frame_prim. Qed.
Lemma tf_same_readFileSync p : preserves tf_same (Fs.readFileSync p).
Proof. frame_prim. Qed.
Lemma tf_same_existsSync p : preserves tf_same (Fs.existsSync p).
Proof. frame_prim. Qed.
Lemma tf_same_unlink env p : preserves tf_same (Fs.unlink env p).
Proof. frame_prim. Qed.
Lemma tf_same_ws_send msg : preserves tf_same (Stream.ws_send msg).
Proof. frame_prim. Qed.
Lemma ws_kept_ws_send msg : preserves ws_kept (Stream.ws_send msg).
Proof. frame_prim. Qed.
Lemma ws_kept_console line : preserves ws_kept (console_error line).
Proof. frame_prim. Qed.

#[export] Hint Resolve grows_makeTensor grows_div
  fs_same_makeTensor ws_same_makeTensor fs_same_startScope ws_same_startScope
  fs_same_endScope ws_same_endScope fs_same_console ws_same_console
  tf_same_console fs_same_warn tf_same_warn tf_same_readFileSync
  tf_same_existsSync tf_same_unlink tf_same_ws_send ws_kept_ws_send
  ws_kept_console : frame.

(** [t.div(c)] for a relation its four steps respect. *)
Lemma preserves_div (R : relation World) `{!PreOrder R} t c :
  preserves R startScope ->
  (forall keep, preserves R (endScope keep)) ->
  (forall sh vs, preserves R (makeTensor sh vs)) ->
  preserves R (div t c).
Proof.
  intros Hstart Hend Hmk. unfold div.
  apply preserves_bind; [assumption | exact Hstart |]. intros _.
  apply preserves_bind; [assumption | apply Hmk |]. intros _.
  apply preserves_bind; [assumption | apply Hmk |]. intros quotient.
  apply preserves_bind; [assumption | apply Hend |]. intros _.
  apply preserves_ret; assumption.
Qed.

Lemma fs_same_div t c : preserves fs_same (div t c).
Proof. apply preserves_div; [typeclasses eauto | | |]; auto with frame. Qed.

Lemma ws_same_div t c : preserves ws_same (div t c).
Proof. apply preserves_div; [typeclasses eauto | | |]; auto with frame. Qed.

#[export] Hint Resolve fs_same_div ws_same_div : frame.

Section WithEnv.
Variable env : Env.

(** The preprocessing chain for any relation its primitives respect. *)
Lemma preserves_preprocess (R : relation World) `{!PreOrder R} buffer :
  (forall sh vs, preserves R (makeTensor sh vs)) ->
  (forall t c, preserves R (div t c)) ->
  preserves R (preprocess env buffer).
Proof.
  intros Hmk Hdiv. unfold preprocess, decodeImage, resizeNearestNeighbor,
    expandDims.
  apply preserves_bind; [assumption | |].
  { apply preserves_bind; [assumption | |].
    - apply preserves_lift; assumption.
    - intros d. apply Hmk. }
  intros decoded. apply preserves_bind; [assumption | |].
  { destruct (resize_data _ _ _ _) as [[sh vs] |].
    - apply Hmk.
    - apply preserves_throw; assumption. }
  intros resized. apply preserves_bind; [assumption | apply Hdiv |].
  intros scaled. apply Hmk.
Qed.

Lemma preserves_predict (R : relation World) `{!PreOrder R} model t :
  (forall sh vs, preserves R (makeTensor sh vs)) ->
  preserves R (predict model t).
Proof.
  intros Hmk. unfold predict.
  apply preserves_bind; [assumption | |].
  - apply preserves_lift; assumption.
  - intros rows. apply Hmk.
Qed.

Lemma preserves_guarded_predict (R : relation World) `{!PreOrder R} model t :
  (forall sh vs, preserves R (makeTensor sh vs)) ->
  preserves R (Http.guarded_predict model t).
Proof.
  intros Hmk. unfold Http.guarded_predict.
  apply preserves_try; [assumption | |].
  - apply preserves_predict; assumption.
  - intros err. apply preserves_throw; assumption.
Qed.

End WithEnv.
End OpFacts.

(** ** The WebSocket server: facts *)

Module StreamFacts.
Import Tf TfOps Frame EngineFacts OpFacts Stream.

Lemma bind_lift {A B} (o : Outcome A) (k : A -> M B) w :
  bind (lift o) k w = match o with
                      | Returned a => k a w
                      | Thrown e => (Thrown e, w)
                      end.
Proof. destruct o; reflexivity. Qed.

Section WithEnv.
Variable env : Env.

Lemma classify_grows model buffer :
  preserves grows (classify env model buffer).
Proof.
  unfold classify.
  apply preserves_bind; [typeclasses eauto | |].
  - apply preserves_preprocess;
      [typeclasses eauto | apply grows_makeTensor | apply grows_div].
  - intros tensor. apply preserves_bind; [typeclasses eauto | |].
    + apply preserves_predict; [typeclasses eauto | apply grows_makeTensor].
    + intros prediction. apply preserves_ret. typeclasses eauto.
Qed.

(** [predictLeafDisease] leaves no tensor behind, whether it resolves or
    rejects. *)
Lemma predictLeafDisease_balanced model buffer :
  balanced (predictLeafDisease env model buffer).
Proof.
  unfold predictLeafDisease. destruct model as [model |].
  - apply tidy_balanced. apply preserves_try; [typeclasses eauto | |].
    + apply classify_grows.
    + intros err. apply preserves_throw. typeclasses eauto.
  - apply tf_same_balanced, preserves_throw. typeclasses eauto.
Qed.

(** [predictLeafDisease] sends nothing and does not touch the
    connection. *)
Lemma predictLeafDisease_ws_same model buffer :
  preserves ws_same (predictLeafDisease env model buffer).
Proof.
  unfold predictLeafDisease. destruct model as [model |].
  - apply tidy_preserves; [typeclasses eauto | | |]; auto with frame.
    apply preserves_try; [typeclasses eauto | |].
    + unfold classify. apply preserves_bind; [typeclasses eauto | |].
      * apply preserves_preprocess; [typeclasses eauto | |]; auto with frame.
      * intros tensor. apply preserves_bind; [typeclasses eauto | |].
        -- apply preserves_predict; [typeclasses eauto |]. auto with frame.
        -- intros prediction. apply preserves_ret. typeclasses eauto.
    + intros err. apply preserves_throw. typeclasses eauto.
  - apply preserves_throw. typeclasses eauto.
Qed.

(** When the [try] block throws, nothing has been sent: [ws.send] is its
    last statement. *)
Lemma handle_thrown_silent model data w e w1 :
  handle env model data w = (Thrown e, w1) -> ws_same w w1.
Proof.
  unfold handle. rewrite bind_lift.
  destruct (JSON_parse env data) as [message | e0];
    [| intros [= <- <-]; reflexivity].
  rewrite bind_lift.
  destruct (get_prop message "type") as [type | e0];
    [| intros [= <- <-]; reflexivity].
  destruct (is_frame type); [| intros [=]].
  rewrite bind_lift.
  destruct (frame_payload message) as [payload | e0];
    [| intros [= <- <-]; reflexivity].
  rewrite bind_lift.
  destruct (Buffer_from env payload) as [buffer | e0];
    [| intros [= <- <-]; reflexivity].
  unfold bind.
  pose proof (predictLeafDisease_ws_same model buffer w) as Hws.
  destruct (predictLeafDisease env model buffer w) as [[r | e0] w2].
  - intros [=].
  - intros [= <- <-]. exact Hws.
Qed.

(** The [catch] block answers a failed [try] with one error message that
    carries [err.message] and an empty prediction list. *)
Lemma on_message_catches model data w e w1 :
  handle env model data w = (Thrown e, w1) ->
  exists w',
    on_message env model data w = (Returned tt, w') /\
    ws_sent w' = (ws_sent w ++ [ErrorMsg (message e) []])%list /\
    ws_open w' = ws_open w /\
    live w' = live w1 /\ next_id w' = next_id w1 /\ scopes w' = scopes w1 /\
    files w' = files w1 /\ fs_calls w' = fs_calls w1.
Proof.
  intros Hthrow. destruct (handle_thrown_silent _ _ _ _ _ Hthrow) as [Ho Hs].
  eexists. split.
  - unfold on_message. erewrite try_thrown by exact Hthrow.
    unfold bind, console_error, ws_send. simpl. reflexivity.
  - simpl. rewrite Hs, Ho. repeat split; reflexivity.
Qed.

(** The message handler never closes the connection, whatever arrives. *)
Lemma on_message_keeps_connection model data :
  preserves ws_kept (on_message env model data).
Proof.
  intros w. unfold on_message, try_catch.
  destruct (handle env model data w) as [[[] | e] w1] eqn:Hrun.
  - revert Hrun. unfold handle. rewrite bind_lift.
    destruct (JSON_parse env data) as [message | e0]; [| intros [=]].
    rewrite bind_lift.
    destruct (get_prop message "type") as [type | e0]; [| intros [=]].
    destruct (is_frame type); [| intros [= <-]; reflexivity].
    rewrite bind_lift.
    destruct (frame_payload message) as [payload | e0]; [| intros [=]].
    rewrite bind_lift.
    destruct (Buffer_from env payload) as [buffer | e0]; [| intros [=]].
    unfold bind.
    pose proof (predictLeafDisease_ws_same model buffer w) as [Ho _].
    destruct (predictLeafDisease env model buffer w) as [[r | e0] w2];
      [| intros [=]].
    unfold ws_send. intros [= <-]. simpl. exact Ho.
  - destruct (handle_thrown_silent _ _ _ _ _ Hrun) as [Ho _].
    unfold bind, console_error, ws_send, ws_kept. simpl. exact Ho.
Qed.

End WithEnv.
End StreamFacts.

(** ** The HTTP servers: facts *)

Module HttpFacts.
Import Tf TfOps Frame EngineFacts OpFacts Http.

Lemma unlink_count_app p calls more :
  Fs.unlink_count p (calls ++ more)
  = Fs.unlink_count p calls + Fs.unlink_count p more.
Proof. unfold Fs.unlink_count. rewrite List.filter_app, length_app. lia. Qed.

Lemma unlink_count_read p q : Fs.unlink_count p [ReadFileSync q] = 0.
Proof. reflexivity. Qed.

Lemma unlink_count_exists p q : Fs.unlink_count p [ExistsSync q] = 0.
Proof. reflexivity. Qed.

Lemma unlink_count_unlink p : Fs.unlink_count p [Unlink p] = 1.
Proof.
  unfold Fs.unlink_count. simpl. rewrite bool_decide_eq_true_2; reflexivity.
Qed.

Section WithEnv.
Variable env : Env.

(** *** The length check *)

Lemma respond_rejects probabilities w :
  length probabilities <> 4 ->
  respond env probabilities w
  = (Thrown (mkError ("Expected 4 output classes but got "
                      +:+ pretty (length probabilities))), w).
Proof.
  intros Hlen. unfold respond, bind. simpl length.
  rewrite bool_decide_eq_true_2 by exact Hlen. reflexivity.
Qed.

Lemma respond_accepts probabilities w :
  length probabilities = 4 ->
  exists w',
    respond env probabilities w
    = (Returned (mkPredictionResult "1.7.4" "2.4.10" "tm-my-image-model"
                   Predictor.classNames
                   (Predictor.predictions probabilities)
                   (Predictor.topPrediction
                      (Predictor.predictions probabilities))
                   224 (now_iso env)), w').
Proof.
  intros Hlen. unfold respond, bind. simpl length.
  rewrite bool_decide_eq_false_2 by (intros H; apply H, Hlen).
  unfold ret at 1.
  destruct (Qlt_le_dec _ _); eexists; reflexivity.
Qed.

Lemma respond_frame (R : relation World) `{!PreOrder R} probabilities :
  (forall line, preserves R (console_warn line)) ->
  preserves R (respond env probabilities).
Proof.
  intros Hwarn. unfold respond.
  apply preserves_bind; [assumption | |].
  { apply preserves_if.
    - apply preserves_throw; assumption.
    - apply preserves_ret; assumption. }
  intros _. apply preserves_bind; [assumption | |].
  { destruct (Qlt_le_dec _ _).
    - apply Hwarn.
    - apply preserves_ret; assumption. }
  intros _. apply preserves_ret; assumption.
Qed.

(** *** The two cleanup blocks *)

(** The success-path cleanup calls [unlink] once and always completes. *)
Lemma delete_uploaded_runs p w :
  exists w',
    delete_uploaded env p w = (Returned tt, w') /\
    fs_calls w' = (fs_calls w ++ [Unlink p])%list /\
    tf_same w w' /\
    files w' = match files w !! p, unlink_fault env p with
               | Some _, None => delete p (files w)
               | _, _ => files w
               end.
Proof.
  unfold delete_uploaded, try_catch, Fs.unlink.
  destruct (files w !! p) as [content |].
  - destruct (unlink_fault env p) as [err |]; eexists;
      (split; [reflexivity |]); simpl; repeat split; reflexivity.
  - eexists. split; [reflexivity |]. simpl. repeat split; reflexivity.
Qed.

(** The failure-path cleanup looks for the file, calls [unlink] once when
    it is there, and always completes with the 500 that carries the
    original message. *)
Lemma on_failure_runs p err w :
  exists w',
    on_failure env p err w
    = (Returned (mkResponse 500
                   (FailureBody "Prediction failed" (message err))), w') /\
    fs_calls w'
    = (fs_calls w ++ ExistsSync p ::
         (if bool_decide (is_Some (files w !! p)) then [Unlink p] else []))%list /\
    tf_same w w' /\
    files w' = match files w !! p, unlink_fault env p with
               | Some _, None => delete p (files w)
               | _, _ => files w
               end.
Proof.
  unfold on_failure, bind, console_error, Fs.existsSync, try_catch,
    Fs.unlink. simpl.
  destruct (files w !! p) as [content |] eqn:Hfile.
  - rewrite bool_decide_eq_true_2 by (eexists; reflexivity).
    simpl. rewrite Hfile.
    destruct (unlink_fault env p) as [err2 |]; eexists;
      (split; [reflexivity |]); simpl; rewrite <- app_assoc;
      repeat split; reflexivity.
  - rewrite bool_decide_eq_false_2 by (intros [? [=]]).
    eexists. split; [reflexivity |]. simpl. repeat split; reflexivity.
Qed.

(** *** A handler around any inference that starts by reading the file *)

Section Handler.
Variable p : string.
Variable infer : M PredictionResult.

(** From [try {] to the end of the handler. *)
Definition finish : M Response :=
  try_catch (let! response := infer in
             do! delete_uploaded env p in
             ret (mkResponse 200 (ResultBody response)))
            (on_failure env p).

(** What the handler answers, read off the inference alone. *)
Definition answer (o : Outcome PredictionResult) : Response :=
  match o with
  | Returned response => mkResponse 200 (ResultBody response)
  | Thrown err => mkResponse 500 (FailureBody "Prediction failed" (message err))
  end.

Hypothesis infer_reads : forall w,
  files (snd (infer w)) = files w /\
  fs_calls (snd (infer w)) = (fs_calls w ++ [ReadFileSync p])%list.

Lemma finish_answer w : fst (finish w) = Returned (answer (fst (infer w))).
Proof.
  unfold finish, try_catch, bind.
  destruct (infer w) as [[response | err] w1]; simpl.
  - destruct (delete_uploaded_runs p w1) as (w2 & -> & _). reflexivity.
  - destruct (on_failure_runs p err w1) as (w2 & -> & _). reflexivity.
Qed.

Lemma finish_unlinks_once w content :
  files w !! p = Some content ->
  Fs.unlink_count p (fs_calls (snd (finish w)))
  = Fs.unlink_count p (fs_calls w) + 1 /\
  files (snd (finish w)) = match unlink_fault env p with
                           | None => delete p (files w)
                           | Some _ => files w
                           end.
Proof.
  intros Hfile. unfold finish, try_catch, bind.
  destruct (infer_reads w) as [Hfiles Hcalls].
  destruct (infer w) as [[response | err] w1]; simpl in *.
  - destruct (delete_uploaded_runs p w1) as (w2 & -> & Hc & _ & Hf). simpl.
    rewrite Hc, Hcalls, Hf, Hfiles, Hfile, !unlink_count_app,
      unlink_count_unlink, unlink_count_read.
    split; [lia |]. destruct (unlink_fault env p); reflexivity.
  - destruct (on_failure_runs p err w1) as (w2 & -> & Hc & _ & Hf). simpl.
    rewrite Hc, Hf, Hfiles, Hfile, Hcalls.
    rewrite bool_decide_eq_true_2 by (eexists; reflexivity).
    rewrite !unlink_count_app.
    change (ExistsSync p :: [Unlink p]) with ([ExistsSync p] ++ [Unlink p])%list.
    rewrite unlink_count_app, unlink_count_unlink, unlink_count_read,
      unlink_count_exists.
    split; [lia |]. destruct (unlink_fault env p); reflexivity.
Qed.

End Handler.
End WithEnv.
End HttpFacts.

(** ** The two handlers as instances of [finish] *)

Module HandlerFacts.
Import Tf TfOps Frame EngineFacts OpFacts Http HttpFacts.

Section WithEnv.
Variable env : Env.
Variable model : Model.
Variable p : string.

(** The first server's [try] block up to the [response] object. *)
Definition infer1 : M PredictionResult :=
  let! buffer := Fs.readFileSync p in
  let! tensor := preprocess env buffer in
  let! prediction := guarded_predict model tensor in
  let! probabilities :=
    match array_0 prediction with
    | Some row => ret row
    | None =>
        throw (mkError
                 "Cannot read properties of undefined (reading 'length')")
    end in
  respond env probabilities.

(** The second server's. *)
Definition infer2 : M PredictionResult :=
  let! buffer := Fs.readFileSync p in
  let! probabilities :=
    tidy (let! tensor := preprocess env buffer in
          let! prediction := guarded_predict model tensor in
          ret (dataSync prediction)) in
  respond env probabilities.

Lemma process1_finish w :
  try_catch (Http1.process env model p) (on_failure env p) w
  = finish env p infer1 w.
Proof.
  unfold finish, try_catch, Http1.process, infer1, bind.
  destruct (Fs.readFileSync p w) as [[buffer | e] w1]; [| reflexivity].
  destruct (preprocess env buffer w1) as [[tensor | e] w2]; [| reflexivity].
  destruct (guarded_predict model tensor w2) as [[prediction | e] w3];
    [| reflexivity].
  destruct (array_0 prediction) as [row |]; [| reflexivity].
  unfold ret at 1 3.
  destruct (respond env row w3) as [[response | e] w4]; reflexivity.
Qed.

Lemma process2_finish w :
  try_catch (Http2.process env model p) (on_failure env p) w
  = finish env p infer2 w.
Proof.
  unfold finish, try_catch, Http2.process, infer2, bind.
  destruct (Fs.readFileSync p w) as [[buffer | e] w1]; [| reflexivity].
  destruct (tidy _ w1) as [[probabilities | e] w2]; [| reflexivity].
  destruct (respond env probabilities w2) as [[response | e] w3];
    reflexivity.
Qed.

Lemma fs_same_after_read {A} (rest : Buffer -> M A) w :
  (forall buffer, preserves fs_same (rest buffer)) ->
  files (snd (bind (Fs.readFileSync p) rest w)) = files w /\
  fs_calls (snd (bind (Fs.readFileSync p) rest w))
  = (fs_calls w ++ [ReadFileSync p])%list.
Proof.
  intros Hrest. unfold bind, Fs.readFileSync.
  destruct (files w !! p) as [buffer |]; [| split; reflexivity].
  destruct (Hrest buffer (Fs.record_call (ReadFileSync p) w)) as [Hf Hc].
  destruct (rest buffer _) as [[a | e] w']; simpl in *; split; assumption.
Qed.

Lemma infer1_reads w :
  files (snd (infer1 w)) = files w /\
  fs_calls (snd (infer1 w)) = (fs_calls w ++ [ReadFileSync p])%list.
Proof.
  apply fs_same_after_read. intros buffer.
  apply preserves_bind; [typeclasses eauto | |].
  { apply preserves_preprocess; [typeclasses eauto | |]; auto with frame. }
  intros tensor. apply preserves_bind; [typeclasses eauto | |].
  { apply preserves_guarded_predict; [typeclasses eauto | auto with frame]. }
  intros prediction. apply preserves_bind; [typeclasses eauto | |].
  { destruct (array_0 prediction).
    - apply preserves_ret. typeclasses eauto.
    - apply preserves_throw. typeclasses eauto. }
  intros row. apply respond_frame; [typeclasses eauto | auto with frame].
Qed.

Lemma infer2_reads w :
  files (snd (infer2 w)) = files w /\
  fs_calls (snd (infer2 w)) = (fs_calls w ++ [ReadFileSync p])%list.
Proof.
  apply fs_same_after_read. intros buffer.
  apply preserves_bind; [typeclasses eauto | |].
  { apply tidy_preserves; [typeclasses eauto | | |]; auto with frame.
    apply preserves_bind; [typeclasses eauto | |].
    { apply preserves_preprocess; [typeclasses eauto | |]; auto with frame. }
    intros tensor. apply preserves_bind; [typeclasses eauto | |].
    { apply preserves_guarded_predict;
        [typeclasses eauto | auto with frame]. }
    intros prediction. apply preserves_ret. typeclasses eauto. }
  intros row. apply respond_frame; [typeclasses eauto | auto with frame].
Qed.

(** The second server leaves no tensor behind on any path. *)
Lemma process2_balanced :
  balanced (try_catch (Http2.process env model p) (on_failure env p)).
Proof.
  apply balanced_try.
  - unfold Http2.process. apply balanced_bind.
    { apply tf_same_balanced. auto with frame. }
    intros buffer. apply balanced_bind.
    { apply tidy_balanced.
      apply preserves_bind; [typeclasses eauto | |].
      { apply preserves_preprocess;
          [typeclasses eauto | apply grows_makeTensor | apply grows_div]. }
      intros tensor. apply preserves_bind; [typeclasses eauto | |].
      { apply preserves_guarded_predict;
          [typeclasses eauto | apply grows_makeTensor]. }
      intros prediction. apply preserves_ret. typeclasses eauto. }
    intros probabilities. apply balanced_bind.
    { apply tf_same_balanced, respond_frame;
        [typeclasses eauto | auto with frame]. }
    intros response. apply balanced_bind.
    { intros w _. destruct (delete_uploaded_runs env p w)
        as (w' & -> & _ & (Hl & Hn & Hs) & _).
      simpl. repeat split; [exact Hl | exact Hs | lia]. }
    intros _. apply tf_same_balanced, preserves_ret. typeclasses eauto.
  - intros err w _. destruct (on_failure_runs env p err w)
      as (w' & -> & _ & (Hl & Hn & Hs) & _).
    simpl. repeat split; [exact Hl | exact Hs | lia].
Qed.

End WithEnv.
End HandlerFacts.

(** * The claims *)

(** ** Tensor lifetime *)

Module TensorLifetime.
Import Tf TfOps Frame EngineFacts OpFacts.

(** Handling a WebSocket message leaves the set of live tensors as it
    was: [predictLeafDisease] works inside [tf.tidy]. *)
Lemma frame_releases_tensors env model data w :
  fresh w -> live (snd (Stream.on_message env model data w)) = live w.
Proof.
  intros Hf.
  assert (balanced (Stream.on_message env model data)) as Hbal.
  { unfold Stream.on_message, Stream.handle. apply balanced_try.
    - apply balanced_bind.
      { apply tf_same_balanced, preserves_lift. typeclasses eauto. }
      intros message. apply balanced_bind.
      { apply tf_same_balanced, preserves_lift. typeclasses eauto. }
      intros type. destruct (Stream.is_frame type).
      + apply balanced_bind.
        { apply tf_same_balanced, preserves_lift. typeclasses eauto. }
        intros payload. apply balanced_bind.
        { apply tf_same_balanced, preserves_lift. typeclasses eauto. }
        intros buffer. apply balanced_bind.
        { apply StreamFacts.predictLeafDisease_balanced. }
        intros prediction. apply tf_same_balanced. auto with frame.
      + apply tf_same_balanced, preserves_ret. typeclasses eauto.
    - intros err. apply tf_same_balanced.
      apply preserves_bind; [typeclasses eauto | |]; auto with frame. }
  apply (Hbal w Hf).
Qed.

(** So does an upload to the second HTTP server, on every path. *)
Lemma tidy_upload_releases_tensors env model file w :
  fresh w -> live (snd (Http2.post_predict env model file w)) = live w.
Proof.
  intros Hf. unfold Http2.post_predict.
  destruct model as [model |]; [| reflexivity].
  destruct file as [file |]; [| reflexivity].
  apply (HandlerFacts.process2_balanced env model (Http.path file) w Hf).
Qed.

(** C1 (code evaluated at the failing input).  An upload to the first
    HTTP server is answered 200 and leaves five tensors live that were not
    live before: the decoded image, the resized image, the quotient, the
    batch tensor and the prediction (the scalar 255, id 2, is disposed by
    [div] itself).  No scope surrounds its tensor operations. *)
Theorem untidy_upload_leaks_tensors :
  let w := Sample.world0 Sample.stored in
  let run := Http1.post_predict (Sample.env None) (Some Sample.model4)
               (Some Sample.upload) w in
  fresh w /\
  live w = ∅ /\
  (exists response, fst run = Returned response /\ Http.status response = 200) /\
  live (snd run) = list_to_set [0; 1; 3; 4; 5] /\
  size (live (snd run)) = 5 /\
  live (snd run) <> live w.
Proof.
  intros w run.
  assert (live (snd run) = list_to_set [0; 1; 3; 4; 5]) as Hlive
    by (vm_compute; reflexivity).
  split; [intros i Hi; exfalso; revert Hi; apply not_elem_of_empty |].
  split; [reflexivity |]. split; [| split; [exact Hlive | split]].
  - eexists. split; [vm_compute; reflexivity | reflexivity].
  - rewrite Hlive. reflexivity.
  - rewrite Hlive. intros Heq.
    assert (0 ∈ (∅ : gset nat)) as Hin; [| revert Hin; apply not_elem_of_empty].
    change (∅ : gset nat) with (live w). rewrite <- Heq.
    apply elem_of_list_to_set. left.
Qed.

End TensorLifetime.

(** ** Length of the prediction list *)

Module OutputLength.
Import Tf TfOps Http HttpFacts.

Lemma predictions_length probabilities :
  length (Predictor.predictions probabilities) = length probabilities.
Proof. unfold Predictor.predictions. apply length_imap. Qed.

(** Both HTTP servers check the length: a [response] object is built only
    from four scores, and anything else is the error
    [Expected 4 output classes but got n]. *)
Lemma http_checks_length env probabilities w :
  (length probabilities <> 4 ->
   respond env probabilities w
   = (Thrown (mkError ("Expected 4 output classes but got "
                       +:+ pretty (length probabilities))), w)) /\
  (forall response w',
     respond env probabilities w = (Returned response, w') ->
     length (predictions response) = 4).
Proof.
  split; [apply respond_rejects |].
  intros response w' Hrun.
  destruct (decide (length probabilities = 4)) as [Hlen | Hlen].
  - destruct (respond_accepts env probabilities w Hlen) as (w'' & Heq).
    rewrite Heq in Hrun. injection Hrun as <- _. simpl.
    rewrite predictions_length. exact Hlen.
  - rewrite respond_rejects in Hrun by exact Hlen. discriminate.
Qed.

(** C2 (code evaluated at the failing input).  With a model whose output
    has three values, [predictLeafDisease] resolves with a list of three
    predictions and the handler sends it as a [prediction] message; no
    error is raised.  The WebSocket server has no length check. *)
Theorem stream_accepts_three_scores :
  let w := Sample.world0 ∅ in
  (exists result w',
     Stream.predictLeafDisease (Sample.env None) (Some Sample.model3)
       [Byte.x78] w = (Returned result, w') /\
     length (Stream.predictions result) = 3 /\
     length Predictor.classNames = 4) /\
  (exists preds top confidence timestamp,
     ws_sent (snd (Stream.on_message (Sample.env None) (Some Sample.model3)
                     "frame" w))
     = [PredictionMsg preds top confidence timestamp] /\
     length preds = 3).
Proof.
  intros w. split.
  - eexists _, _. split; [vm_compute; reflexivity |]. split; reflexivity.
  - eexists _, _, _, _. split; [vm_compute; reflexivity | reflexivity].
Qed.

End OutputLength.

(** ** Model not loaded *)

Module Readiness.
Import Frame Stream StreamFacts.

(** C6. While the model is not loaded, both HTTP servers answer every
    [POST /predict] with status 503 and leave the world untouched; and the
    WebSocket server answers every message of type [frame] with exactly
    one error message on the same connection, whose state does not change,
    without creating any tensor or touching any file. *)
Theorem model_not_loaded env w :
  (forall file,
     Http1.post_predict env None file w = (Returned Http.not_ready, w)) /\
  (forall file,
     Http2.post_predict env None file w = (Returned Http.not_ready, w)) /\
  Http.status Http.not_ready = 503 /\
  (forall data parsed type,
     JSON_parse env data = Returned parsed ->
     get_prop parsed "type" = Returned type ->
     is_frame type = true ->
     exists reason w',
       on_message env None data w = (Returned tt, w') /\
       ws_sent w' = (ws_sent w ++ [ErrorMsg reason []])%list /\
       ws_open w' = ws_open w /\
       tf_same w w' /\ fs_same w w').
Proof.
  split; [reflexivity |]. split; [reflexivity |]. split; [reflexivity |].
  intros data parsed type Hparse Htype Hframe.
  assert (exists err, handle env None data w = (Thrown err, w)) as [err Hrun].
  { unfold handle. rewrite bind_lift, Hparse, bind_lift, Htype, Hframe.
    rewrite bind_lift.
    destruct (frame_payload parsed) as [payload | e1];
      [| eexists; reflexivity].
    rewrite bind_lift.
    destruct (Buffer_from env payload) as [buffer | e2];
      eexists; reflexivity. }
  destruct (on_message_catches env None data w err w Hrun)
    as (w' & Hmsg & Hsent & Hopen & Hl & Hn & Hs & Hf & Hc).
  exists (message err), w'. repeat split; assumption.
Qed.

Lemma model_not_loaded_witness :
  Http1.post_predict (Sample.env None) None (Some Sample.upload)
    (Sample.world0 Sample.stored)
  = (Returned Http.not_ready, Sample.world0 Sample.stored) /\
  exists reason w',
    on_message (Sample.env None) None "frame" (Sample.world0 ∅)
    = (Returned tt, w') /\
    ws_sent w' = [ErrorMsg reason []] /\
    ws_open w' = true /\
    tf_same (Sample.world0 ∅) w' /\ fs_same (Sample.world0 ∅) w'.
Proof.
  split.
  - apply (model_not_loaded (Sample.env None) (Sample.world0 Sample.stored)).
  - apply (model_not_loaded (Sample.env None) (Sample.world0 ∅))
      with (data := "frame")
           (parsed := JObj [("type", JStr "frame");
                             ("frameData", JStr "data:image/png;base64,eA==")])
           (type := Some (JStr "frame")); reflexivity.
Defined.

End Readiness.

(** ** Replies on the WebSocket connection *)

Module StreamReplies.
Import Tf TfOps Frame EngineFacts Stream StreamFacts.

(** The handler returns normally after sending exactly [msg], with the
    connection in the state it was in. *)
Definition sends_only env model data w (msg : Outbound) : Prop :=
  exists w',
    on_message env model data w = (Returned tt, w') /\
    ws_sent w' = (ws_sent w ++ [msg])%list /\
    ws_open w' = ws_open w.

Lemma thrown_sends_only env model data w err w1 :
  handle env model data w = (Thrown err, w1) ->
  sends_only env model data w (ErrorMsg (message err) []).
Proof.
  intros Hrun.
  destruct (on_message_catches env model data w err w1 Hrun)
    as (w' & Hmsg & Hsent & Hopen & _).
  exists w'. repeat split; assumption.
Qed.

(** A rejected [predictLeafDisease] rejects the [try] block of a frame. *)
Lemma frame_rejected env model data w parsed type payload err :
  JSON_parse env data = Returned parsed ->
  get_prop parsed "type" = Returned type ->
  is_frame type = true ->
  frame_payload parsed = Returned (Some payload) ->
  fst (predictLeafDisease env model (from_base64 env payload) w)
  = Thrown err ->
  exists w1, handle env model data w = (Thrown err, w1).
Proof.
  intros Hparse Htype Hframe Hpayload Hrun.
  unfold handle.
  rewrite bind_lift, Hparse, bind_lift, Htype, Hframe, bind_lift, Hpayload.
  rewrite bind_lift. simpl. unfold bind.
  destruct (predictLeafDisease env model (from_base64 env payload) w)
    as [o w1].
  simpl in Hrun. subst o. exists w1. reflexivity.
Qed.

Lemma decode_error_rejects env model buffer w err :
  decode_image env buffer 3 = Thrown err ->
  fst (predictLeafDisease env (Some model) buffer w)
  = Thrown (mkError ("Prediction failed: " +:+ message err)).
Proof.
  intros Hdec. unfold predictLeafDisease.
  destruct (tidy_run (try_catch (classify env model buffer)
              (fun err0 => throw (mkError ("Prediction failed: "
                                           +:+ message err0)))) w)
    as [-> _].
  unfold try_catch, classify, preprocess, decodeImage.
  unfold bind at 1 2 3 4 5. rewrite Hdec. reflexivity.
Qed.

Lemma model_error_rejects env model buffer w h wd c pixels err :
  decode_image env buffer 3 = Returned ([h; wd; c], pixels) ->
  (forall id, model (mkTensor id [1; 224; 224; c]
                       (div_data 255 (resize_plane h wd c 224 224 pixels 0)))
              = Thrown err) ->
  fst (predictLeafDisease env (Some model) buffer w)
  = Thrown (mkError ("Prediction failed: " +:+ message err)).
Proof.
  intros Hdec Hmodel. unfold predictLeafDisease.
  destruct (tidy_run (try_catch (classify env model buffer)
              (fun err0 => throw (mkError ("Prediction failed: "
                                           +:+ message err0)))) w)
    as [-> _].
  destruct (PreprocessFacts.preprocess_still env buffer h wd c pixels
              (snd (startScope w)) Hdec) as [w2 Hpre].
  unfold try_catch, classify.
  erewrite bind_returned by exact Hpre.
  unfold predict, bind, lift. rewrite Hmodel. reflexivity.
Qed.

(** C7. A frame whose processing fails is answered with exactly one
    message [{type: "error", error: <failure message>, predictions: []}]
    on the same connection, and the connection stays as it was: whatever
    the [try] block throws; in particular when the text does not parse
    (the parser's message), when the image does not decode, and when the
    model's forward pass throws (both prefixed [Prediction failed: ]). *)
Theorem failed_frame_gets_one_error env model data w :
  (forall err w1,
     handle env model data w = (Thrown err, w1) ->
     sends_only env model data w (ErrorMsg (message err) [])) /\
  (forall err,
     JSON_parse env data = Thrown err ->
     sends_only env model data w (ErrorMsg (message err) [])) /\
  (forall parsed type payload m err,
     JSON_parse env data = Returned parsed ->
     get_prop parsed "type" = Returned type ->
     is_frame type = true ->
     frame_payload parsed = Returned (Some payload) ->
     model = Some m ->
     decode_image env (from_base64 env payload) 3 = Thrown err ->
     sends_only env model data w
       (ErrorMsg ("Prediction failed: " +:+ message err) [])) /\
  (forall parsed type payload m h wd c pixels err,
     JSON_parse env data = Returned parsed ->
     get_prop parsed "type" = Returned type ->
     is_frame type = true ->
     frame_payload parsed = Returned (Some payload) ->
     model = Some m ->
     decode_image env (from_base64 env payload) 3
     = Returned ([h; wd; c], pixels) ->
     (forall id,
        m (mkTensor id [1; 224; 224; c]
             (div_data 255 (resize_plane h wd c 224 224 pixels 0)))
        = Thrown err) ->
     sends_only env model data w
       (ErrorMsg ("Prediction failed: " +:+ message err) [])).
Proof.
  split; [| split; [| split]].
  - intros err w1. apply thrown_sends_only.
  - intros err Hparse. apply (thrown_sends_only env model data w err w).
    unfold handle. rewrite bind_lift, Hparse. reflexivity.
  - intros parsed type payload m err Hparse Htype Hframe Hpayload -> Hdec.
    destruct (frame_rejected env (Some m) data w parsed type payload _
                Hparse Htype Hframe Hpayload
                (decode_error_rejects env m _ w err Hdec)) as [w1 Hrun].
    apply (thrown_sends_only _ _ _ _ _ _ Hrun).
  - intros parsed type payload m h wd c pixels err
      Hparse Htype Hframe Hpayload -> Hdec Hmodel.
    destruct (frame_rejected env (Some m) data w parsed type payload _
                Hparse Htype Hframe Hpayload
                (model_error_rejects env m _ w h wd c pixels err Hdec Hmodel))
      as [w1 Hrun].
    apply (thrown_sends_only _ _ _ _ _ _ Hrun).
Qed.

Lemma failed_frame_gets_one_error_witness :
  sends_only (Sample.env None) (Some Sample.model4) "" (Sample.world0 ∅)
    (ErrorMsg "Unexpected end of JSON input" []) /\
  sends_only (Sample.env None) (Some Sample.broken_model) "frame"
    (Sample.world0 ∅)
    (ErrorMsg "Prediction failed: expected input to have shape [null,224,224,3]" []).
Proof.
  split.
  - destruct (failed_frame_gets_one_error (Sample.env None)
                (Some Sample.model4) "" (Sample.world0 ∅))
      as (_ & Hparse & _).
    apply (Hparse (mkError "Unexpected end of JSON input")). reflexivity.
  - destruct (failed_frame_gets_one_error (Sample.env None)
                (Some Sample.broken_model) "frame" (Sample.world0 ∅))
      as (_ & _ & _ & Hmodel).
    apply (Hmodel
             (JObj [("type", JStr "frame");
                    ("frameData", JStr "data:image/png;base64,eA==")])
             (Some (JStr "frame")) "eA==" Sample.broken_model 1 1 3
             (repeat (Sample.grey Byte.x78) 3)
             (mkError "expected input to have shape [null,224,224,3]"));
      reflexivity.
Defined.

(** C10. A message that parses to a JSON value whose [type] can be read
    and is not the string [frame] changes nothing: the handler returns
    with the world as it was, so nothing is sent and the connection is in
    the same state. *)
Theorem other_messages_are_ignored env model data parsed type w :
  JSON_parse env data = Returned parsed ->
  get_prop parsed "type" = Returned type ->
  is_frame type = false ->
  on_message env model data w = (Returned tt, w).
Proof.
  intros Hparse Htype Hframe. unfold on_message, try_catch, handle.
  rewrite bind_lift, Hparse, bind_lift, Htype, Hframe. reflexivity.
Qed.

Lemma other_messages_are_ignored_witness :
  on_message (Sample.env None) (Some Sample.model4) "ping" (Sample.world0 ∅)
  = (Returned tt, Sample.world0 ∅).
Proof.
  apply (other_messages_are_ignored (Sample.env None) (Some Sample.model4)
           "ping"
           (JObj [("type", JStr "ping");
                  ("frameData", JStr "data:image/png;base64,eA==")])
           (Some (JStr "ping")) (Sample.world0 ∅)); reflexivity.
Defined.

End StreamReplies.

(** ** The uploaded file *)

Module Cleanup.
Import Frame Http HttpFacts HandlerFacts.

(** [env] with another answer to "does the system refuse this
    deletion?". *)
Definition with_fault (env : Env) (fault : string -> option Error) : Env :=
  mkEnv (decode_image env) fault (JSON_parse env) (from_base64 env)
        (now_iso env) (toFixed2 env).

(** [unlink] does reject: on a path that is already gone, and when the
    system refuses. *)
Lemma unlink_rejects env p w :
  (files w !! p = None ->
   fst (Fs.unlink env p w) = Thrown (Fs.ENOENT "unlink" p)) /\
  (forall content err,
     files w !! p = Some content -> unlink_fault env p = Some err ->
     fst (Fs.unlink env p w) = Thrown err).
Proof.
  unfold Fs.unlink. split.
  - intros ->. reflexivity.
  - intros content err -> ->. reflexivity.
Qed.

(** C3 (counterexample).  The model is not loaded and the upload
    middleware has stored a file: the handler answers 503 and returns
    without any [unlink]; the file is still on disk. *)
Lemma not_ready_keeps_upload :
  let w := Sample.world0 Sample.stored in
  let run := Http1.post_predict (Sample.env None) None
               (Some Sample.upload) w in
  fst run = Returned not_ready /\
  files (snd run) !! path Sample.upload = Some [Byte.x78] /\
  Fs.unlink_count (path Sample.upload) (fs_calls (snd run)) = 0 /\
  Fs.unlink_count (path Sample.upload) (fs_calls (snd run)) <> 1.
Proof.
  intros w run. split; [reflexivity |]. split; [reflexivity |].
  split; [reflexivity |]. discriminate.
Qed.

(** On the failure path the deletion is guarded by [fs.existsSync]: when
    the file is not there any more, no [unlink] is attempted. *)
Lemma missing_upload_not_unlinked :
  let w := Sample.world0 ∅ in
  let run := Http1.post_predict (Sample.env None) (Some Sample.model4)
               (Some Sample.upload) w in
  (exists response, fst run = Returned response /\ status response = 500) /\
  fs_calls (snd run)
  = [ReadFileSync (path Sample.upload); ExistsSync (path Sample.upload)] /\
  Fs.unlink_count (path Sample.upload) (fs_calls (snd run)) = 0.
Proof.
  intros w run. split; [| split]; [| reflexivity | reflexivity].
  eexists. split; reflexivity.
Qed.

(** C3 (amended).  For a request that passes both guards (model loaded,
    file attached) and whose temporary file is on disk, each server
    resolves the request and calls [unlink] on that file exactly once,
    on the success path and on the failure path alike; the file is gone
    afterwards unless the system refused the deletion, in which case it
    is left and no second attempt is made. *)
Theorem upload_unlinked_once env model file content w :
  files w !! path file = Some content ->
  let p := path file in
  let run1 := Http1.post_predict env (Some model) (Some file) w in
  let run2 := Http2.post_predict env (Some model) (Some file) w in
  let remaining := match unlink_fault env p with
                   | None => delete p (files w)
                   | Some _ => files w
                   end in
  ((exists response, fst run1 = Returned response) /\
   Fs.unlink_count p (fs_calls (snd run1))
   = Fs.unlink_count p (fs_calls w) + 1 /\
   files (snd run1) = remaining) /\
  ((exists response, fst run2 = Returned response) /\
   Fs.unlink_count p (fs_calls (snd run2))
   = Fs.unlink_count p (fs_calls w) + 1 /\
   files (snd run2) = remaining).
Proof.
  intros Hfile p run1 run2 remaining. subst run1 run2 remaining p.
  unfold Http1.post_predict, Http2.post_predict.
  rewrite process1_finish, process2_finish. split.
  - split; [eexists; apply finish_answer |].
    apply (finish_unlinks_once env (path file) (infer1 env model (path file))
             (infer1_reads env model (path file)) w content Hfile).
  - split; [eexists; apply finish_answer |].
    apply (finish_unlinks_once env (path file) (infer2 env model (path file))
             (infer2_reads env model (path file)) w content Hfile).
Qed.

Lemma upload_unlinked_once_witness :
  let w := Sample.world0 Sample.stored in
  let locked := Sample.env (Some (path Sample.upload)) in
  files w !! path Sample.upload = Some [Byte.x78] /\
  Fs.unlink_count (path Sample.upload)
    (fs_calls (snd (Http1.post_predict locked (Some Sample.model3)
                      (Some Sample.upload) w))) = 0 + 1 /\
  files (snd (Http1.post_predict locked (Some Sample.model3)
                (Some Sample.upload) w)) = files w.
Proof.
  intros w locked. split; [reflexivity |].
  destruct (upload_unlinked_once locked Sample.model3 Sample.upload
              [Byte.x78] w) as [(_ & Hcount & Hfiles) _];
    [reflexivity |].
  split; [exact Hcount | exact Hfiles].
Defined.

(** C8. Whether or not the system refuses deletions, each server
    resolves every request with the same response as when no deletion is
    ever refused; and each cleanup block completes normally in every
    world, also when the file is already gone: the success-path block
    returns, the failure-path block returns the 500 carrying the original
    error's message. *)
Theorem cleanup_failure_is_swallowed env fault model file w :
  (exists response,
     fst (Http1.post_predict (with_fault env fault) model file w)
     = Returned response /\
     fst (Http1.post_predict (with_fault env (fun _ => None)) model file w)
     = Returned response) /\
  (exists response,
     fst (Http2.post_predict (with_fault env fault) model file w)
     = Returned response /\
     fst (Http2.post_predict (with_fault env (fun _ => None)) model file w)
     = Returned response) /\
  (forall p w',
     fst (delete_uploaded (with_fault env fault) p w') = Returned tt) /\
  (forall p err w',
     fst (on_failure (with_fault env fault) p err w')
     = Returned (mkResponse 500
                   (FailureBody "Prediction failed" (message err)))).
Proof.
  split; [| split; [| split]].
  - unfold Http1.post_predict.
    destruct model as [model |]; [| eexists; split; reflexivity].
    destruct file as [file |]; [| eexists; split; reflexivity].
    rewrite !process1_finish, !finish_answer.
    eexists. split; reflexivity.
  - unfold Http2.post_predict.
    destruct model as [model |]; [| eexists; split; reflexivity].
    destruct file as [file |]; [| eexists; split; reflexivity].
    rewrite !process2_finish, !finish_answer.
    eexists. split; reflexivity.
  - intros p w'.
    destruct (delete_uploaded_runs (with_fault env fault) p w')
      as (w2 & -> & _). reflexivity.
  - intros p err w'.
    destruct (on_failure_runs (with_fault env fault) p err w')
      as (w2 & -> & _). reflexivity.
Qed.

(** C9. With the model loaded and no file attached, both servers answer
    status 400 with the message [No image uploaded] and return with the
    world as it was: no [fs] call is made and no file changes. *)
Theorem no_file_is_bad_request env model w :
  Http1.post_predict env (Some model) None w = (Returned no_image, w) /\
  Http2.post_predict env (Some model) None w = (Returned no_image, w) /\
  status no_image = 400 /\
  body no_image = ErrorBody "No image uploaded" /\
  fs_calls (snd (Http1.post_predict env (Some model) None w)) = fs_calls w /\
  fs_calls (snd (Http2.post_predict env (Some model) None w)) = fs_calls w.
Proof. repeat split; reflexivity. Qed.

End Cleanup.

(** * Further properties of the code *)

(** ** Labelling and ranking *)

Module PredictorExtras.
Import Predictor PredictorFacts.

(** X1. Labelling keeps the scores as they are and in order, and entry
    [i] carries [classNames[i]]: a label for the first four entries,
    [undefined] for any entry past the label array. *)
Theorem predictions_aligned (probabilities : list Q) :
  List.map probability (predictions probabilities) = probabilities /\
  (forall i p,
     predictions probabilities !! i = Some p ->
     probabilities !! i = Some (probability p) /\
     className p = classNames !! i /\
     (className p = None <-> 4 <= i)).
Proof.
  unfold predictions. split.
  - apply list_eq. intros i.
    change (List.map probability) with (fmap (M:=list) probability).
    rewrite list_lookup_fmap, list_lookup_imap.
    destruct (probabilities !! i); reflexivity.
  - intros i p Hp. rewrite list_lookup_imap in Hp.
    destruct (probabilities !! i) as [q |]; [| discriminate].
    injection Hp as <-. simpl. split; [reflexivity |]. split; [reflexivity |].
    split.
    + intros Hnone. apply lookup_ge_None in Hnone. exact Hnone.
    + intros Hge. apply lookup_ge_None. exact Hge.
Qed.

(** X2. The top prediction is the seed or an entry of the list.  It is
    an entry with a positive score as soon as one score is positive, and
    it is the seed [{className: "", probability: 0}] whenever no score is
    positive, also when the list holds negative scores. *)
Theorem topPrediction_seed_or_positive (preds : list Prediction) :
  ((exists p, p ∈ preds /\ (0 < probability p)%Q) ->
   topPrediction preds ∈ preds /\ (0 < probability (topPrediction preds))%Q) /\
  (Forall (fun p => (probability p <= 0)%Q) preds ->
   topPrediction preds = seed).
Proof.
  unfold topPrediction.
  destruct (reduce_pick preds seed)
    as [[Hr Hall] | (before & after & Heq & Hgt & Hb & Ha)].
  - split; [| intros _; exact Hr].
    intros (p & Hin & Hpos). exfalso.
    rewrite Forall_forall in Hall. specialize (Hall p Hin). simpl in Hall.
    apply (Qlt_irrefl 0). eapply Qlt_le_trans; eassumption.
  - split.
    + intros _. split; [| exact Hgt].
      rewrite Heq at 2. apply elem_of_app. right. left.
    + intros Hneg. exfalso.
      assert (fold_left pick preds seed ∈ preds) as Hin.
      { rewrite Heq at 2. apply elem_of_app. right. left. }
      rewrite Forall_forall in Hneg. specialize (Hneg _ Hin). simpl in Hgt.
      apply (Qlt_irrefl 0). eapply Qlt_le_trans; eassumption.
Qed.

Lemma topPrediction_seed_or_positive_witness :
  topPrediction (predictions [-1 # 2; -3 # 10]%Q) = seed /\
  topPrediction (predictions [-1 # 2; 3 # 10]%Q)
    ∈ predictions [-1 # 2; 3 # 10]%Q.
Proof.
  split.
  - apply (topPrediction_seed_or_positive (predictions [-1 # 2; -3 # 10]%Q)).
    repeat constructor; simpl; discriminate.
  - apply (topPrediction_seed_or_positive (predictions [-1 # 2; 3 # 10]%Q)).
    exists (mkPrediction (Some "Healthy") (3 # 10)). split.
    + right. left.
    + reflexivity.
Defined.

End PredictorExtras.

(** ** The payload of a frame *)

Module PayloadExtras.
Import Frame Stream StreamFacts.

(** Does the text contain a comma? *)
Fixpoint has_comma (text : string) : bool :=
  match text with
  | EmptyString => false
  | String ch rest => Ascii.eqb ch "," || has_comma rest
  end.

Lemma split_comma_cons (text : string) :
  exists piece pieces, split_comma text = piece :: pieces.
Proof.
  induction text as [| ch rest IH]; simpl.
  - eexists _, _. reflexivity.
  - destruct (Ascii.eqb ch ","); [eexists _, _; reflexivity |].
    destruct IH as (piece & pieces & ->). eexists _, _. reflexivity.
Qed.

Lemma concat_first_char sep ch piece pieces :
  String.concat sep (String ch piece :: pieces)
  = String ch (String.concat sep (piece :: pieces)).
Proof. destruct pieces; reflexivity. Qed.

Lemma split_comma_join (text : string) :
  String.concat "," (split_comma text) = text.
Proof.
  induction text as [| ch rest IH]; [reflexivity |].
  simpl split_comma.
  destruct (split_comma_cons rest) as (piece & pieces & Hsplit).
  rewrite Hsplit in *. destruct (Ascii.eqb ch ",") eqn:Hch.
  - apply Ascii.eqb_eq in Hch. subst ch.
    change (String.concat "," ("" :: piece :: pieces))
      with (String "," (String.concat "," (piece :: pieces))).
    rewrite IH. reflexivity.
  - rewrite concat_first_char, IH. reflexivity.
Qed.

Lemma split_comma_pieces (text : string) :
  Forall (fun piece => has_comma piece = false) (split_comma text).
Proof.
  induction text as [| ch rest IH]; simpl.
  - repeat constructor.
  - destruct (Ascii.eqb ch ",") eqn:Hch.
    + constructor; [reflexivity | exact IH].
    + destruct (split_comma_cons rest) as (piece & pieces & Hsplit).
      rewrite Hsplit in *. apply Forall_cons in IH as [Hpiece Hrest].
      constructor; [| exact Hrest]. simpl. rewrite Hch. exact Hpiece.
Qed.

Lemma split_comma_second (text : string) :
  split_comma text !! 1 = None <-> has_comma text = false.
Proof.
  induction text as [| ch rest IH]; simpl.
  - split; reflexivity.
  - destruct (Ascii.eqb ch ",") eqn:Hch; simpl.
    + destruct (split_comma_cons rest) as (piece & pieces & ->).
      split; discriminate.
    + destruct (split_comma_cons rest) as (piece & pieces & Hsplit).
      rewrite Hsplit in *. exact IH.
Qed.

(** X3. [text.split(",")] as modelled: joining the pieces with commas
    gives the text back, no piece contains a comma, and there is a second
    piece exactly when the text contains a comma. *)
Theorem split_comma_round_trip (text : string) :
  String.concat "," (split_comma text) = text /\
  Forall (fun piece => has_comma piece = false) (split_comma text) /\
  (split_comma text !! 1 = None <-> has_comma text = false).
Proof.
  split; [apply split_comma_join |].
  split; [apply split_comma_pieces | apply split_comma_second].
Qed.

(** The payload is what stands between the first comma and the next. *)
Lemma split_comma_prefix (prefix rest : string) :
  has_comma prefix = false ->
  split_comma (prefix +:+ String "," rest) !! 1 = split_comma rest !! 0.
Proof.
  induction prefix as [| ch prefix IH]; simpl; intros Hno.
  - reflexivity.
  - apply orb_false_iff in Hno as [Hch Hno]. rewrite Hch.
    specialize (IH Hno).
    destruct (split_comma_cons (prefix +:+ String "," rest))
      as (piece & pieces & Hsplit).
    rewrite Hsplit in *. exact IH.
Qed.

Lemma split_comma_whole (text : string) :
  has_comma text = false -> split_comma text = [text].
Proof.
  induction text as [| ch rest IH]; simpl; intros Hno; [reflexivity |].
  apply orb_false_iff in Hno as [Hch Hno]. rewrite Hch, (IH Hno). reflexivity.
Qed.

(** X4. When [frameData] is a data URL, [header,payload] with no comma in
    either part, the text handed to the base64 decoder is exactly
    [payload]. *)
Theorem data_url_payload (parsed : JSValue) (header payload : string) :
  get_prop parsed "frameData"
  = Returned (Some (JStr (header +:+ String "," payload))) ->
  has_comma header = false ->
  has_comma payload = false ->
  frame_payload parsed = Returned (Some payload).
Proof.
  intros Hdata Hheader Hpayload. unfold frame_payload. rewrite Hdata.
  rewrite split_comma_prefix by exact Hheader.
  rewrite split_comma_whole by exact Hpayload. reflexivity.
Qed.

Lemma data_url_payload_witness :
  frame_payload
    (JObj [("type", JStr "frame");
           ("frameData", JStr "data:image/png;base64,eA==")])
  = Returned (Some "eA==").
Proof.
  apply (data_url_payload _ "data:image/png;base64" "eA=="); reflexivity.
Defined.

(** X5. A frame whose [frameData] is missing, is not a string, or is a
    string without a comma (a bare base64 text, say) is answered with
    exactly one error message, whether or not the model is loaded; no
    tensor is created and no file is touched. *)
Theorem frame_without_payload env model data parsed type frameData w :
  JSON_parse env data = Returned parsed ->
  get_prop parsed "type" = Returned type ->
  is_frame type = true ->
  get_prop parsed "frameData" = Returned frameData ->
  (forall text, frameData = Some (JStr text) -> has_comma text = false) ->
  exists reason w',
    on_message env model data w = (Returned tt, w') /\
    ws_sent w' = (ws_sent w ++ [ErrorMsg reason []])%list /\
    ws_open w' = ws_open w /\
    tf_same w w' /\ fs_same w w'.
Proof.
  intros Hparse Htype Hframe Hdata Hno.
  assert (exists err, handle env model data w = (Thrown err, w)) as [err Hrun].
  { unfold handle. rewrite bind_lift, Hparse, bind_lift, Htype, Hframe.
    rewrite bind_lift. unfold frame_payload. rewrite Hdata.
    destruct frameData as [[| b | q | text | items | fields] |];
      try (eexists; reflexivity).
    rewrite bind_lift.
    rewrite (proj2 (split_comma_second text) (Hno text eq_refl)).
    eexists. reflexivity. }
  destruct (on_message_catches env model data w err w Hrun)
    as (w' & Hmsg & Hsent & Hopen & Hl & Hn & Hs & Hf & Hc).
  exists (message err), w'. repeat split; assumption.
Qed.

Lemma frame_without_payload_witness :
  exists reason w',
    on_message
      (mkEnv Sample.decode (fun _ => None)
         (fun text => Returned (JObj [("type", JStr "frame");
                                      ("frameData", JStr text)]))
         Sample.base64 "2025-01-01T00:00:00.000Z" (fun _ => "70.00"))
      (Some Sample.model4) "eA==" (Sample.world0 ∅) = (Returned tt, w') /\
    ws_sent w' = [ErrorMsg reason []] /\
    ws_open w' = true /\
    tf_same (Sample.world0 ∅) w' /\ fs_same (Sample.world0 ∅) w'.
Proof.
  apply (frame_without_payload _ (Some Sample.model4) "eA=="
           (JObj [("type", JStr "frame"); ("frameData", JStr "eA==")])
           (Some (JStr "frame")) (Some (JStr "eA==")) (Sample.world0 ∅));
    try reflexivity.
  intros text [= <-]. reflexivity.
Defined.

End PayloadExtras.

(** ** Replies of the WebSocket server *)

Module StreamExtras.
Import Tf TfOps Frame EngineFacts OpFacts Stream StreamFacts.

Section WithEnv.
Variable env : Env.

(** What [predictLeafDisease] resolves to from the row-major scores. *)
Definition result_of (scores : list Q) : Result :=
  let preds := Predictor.predictions scores in
  let top := Predictor.topPrediction preds in
  mkResult preds top (toFixed2 env (probability top * 100)%Q) (now_iso env).

Lemma predictLeafDisease_resolves model buffer w h wd c pixels rows :
  decode_image env buffer 3 = Returned ([h; wd; c], pixels) ->
  (forall id, model (mkTensor id [1; 224; 224; c]
                       (div_data 255 (resize_plane h wd c 224 224 pixels 0)))
              = Returned rows) ->
  fst (predictLeafDisease env (Some model) buffer w)
  = Returned (result_of (concat rows)).
Proof.
  intros Hdec Hmodel. unfold predictLeafDisease.
  destruct (tidy_run (try_catch (classify env model buffer)
              (fun err0 => throw (mkError ("Prediction failed: "
                                           +:+ message err0)))) w)
    as [-> _].
  destruct (PreprocessFacts.preprocess_still env buffer h wd c pixels
              (snd (startScope w)) Hdec) as [w2 Hpre].
  unfold try_catch, classify.
  erewrite bind_returned by exact Hpre.
  unfold predict, bind, lift. rewrite Hmodel. reflexivity.
Qed.

Lemma on_message_balanced model data :
  balanced (on_message env model data).
Proof.
  unfold on_message, handle. apply balanced_try.
  - apply balanced_bind.
    { apply tf_same_balanced, preserves_lift. typeclasses eauto. }
    intros parsed. apply balanced_bind.
    { apply tf_same_balanced, preserves_lift. typeclasses eauto. }
    intros type. destruct (is_frame type).
    + apply balanced_bind.
      { apply tf_same_balanced, preserves_lift. typeclasses eauto. }
      intros payload. apply balanced_bind.
      { apply tf_same_balanced, preserves_lift. typeclasses eauto. }
      intros buffer. apply balanced_bind.
      { apply predictLeafDisease_balanced. }
      intros prediction. apply tf_same_balanced. auto with frame.
    + apply tf_same_balanced, preserves_ret. typeclasses eauto.
  - intros err. apply tf_same_balanced.
    apply preserves_bind; [typeclasses eauto | |]; auto with frame.
Qed.

(** X6. A frame with a payload that decodes to a still image, on which
    the model returns scores, is answered with exactly one prediction
    message: the scores labelled in order, their top prediction, its
    probability times 100 formatted by [toFixed(2)], and the timestamp.
    The connection is as before and no tensor stays live. *)
Theorem frame_gets_one_prediction model data parsed type payload
    h wd c pixels rows w :
  JSON_parse env data = Returned parsed ->
  get_prop parsed "type" = Returned type ->
  is_frame type = true ->
  frame_payload parsed = Returned (Some payload) ->
  decode_image env (from_base64 env payload) 3
  = Returned ([h; wd; c], pixels) ->
  (forall id, model (mkTensor id [1; 224; 224; c]
                       (div_data 255 (resize_plane h wd c 224 224 pixels 0)))
              = Returned rows) ->
  fresh w ->
  exists w',
    on_message env (Some model) data w = (Returned tt, w') /\
    ws_sent w'
    = (ws_sent w
       ++ [PredictionMsg (predictions (result_of (concat rows)))
             (topPrediction (result_of (concat rows)))
             (confidence (result_of (concat rows)))
             (timestamp (result_of (concat rows)))])%list /\
    ws_open w' = ws_open w /\
    live w' = live w.
Proof.
  intros Hparse Htype Hframe Hpayload Hdec Hmodel Hfresh.
  pose proof (predictLeafDisease_resolves model _ w h wd c pixels rows
                Hdec Hmodel) as Hres.
  pose proof (predictLeafDisease_ws_same env (Some model)
                (from_base64 env payload) w) as [Hopen Hsent].
  pose proof (predictLeafDisease_balanced env (Some model)
                (from_base64 env payload) w Hfresh) as (Hlive & _).
  unfold on_message, try_catch, handle.
  rewrite bind_lift, Hparse, bind_lift, Htype, Hframe, bind_lift, Hpayload.
  rewrite bind_lift. simpl Buffer_from. cbv iota. unfold bind.
  destruct (predictLeafDisease env (Some model) (from_base64 env payload) w)
    as [o w1].
  simpl in Hres, Hopen, Hsent, Hlive. subst o.
  eexists. split; [reflexivity |]. simpl.
  rewrite Hsent. repeat split; assumption.
Qed.

(** X7. Every incoming message, whatever it holds, makes the handler
    return normally with the connection in the same state and at most one
    message sent: one prediction, one error with an empty prediction
    list, or nothing.  Nothing is sent exactly when the text parses to a
    value whose [type] can be read and is not [frame]. *)
Theorem one_reply_at_most model data w :
  exists replies w',
    on_message env model data w = (Returned tt, w') /\
    ws_sent w' = (ws_sent w ++ replies)%list /\
    ws_open w' = ws_open w /\
    (replies = [] \/
     (exists preds top conf time,
        replies = [PredictionMsg preds top conf time]) \/
     (exists reason, replies = [ErrorMsg reason []])) /\
    (replies = [] <->
     exists parsed type,
       JSON_parse env data = Returned parsed /\
       get_prop parsed "type" = Returned type /\
       is_frame type = false).
Proof.
  unfold on_message, try_catch, handle. rewrite bind_lift.
  destruct (JSON_parse env data) as [parsed | e0] eqn:Hparse.
  2: { exists [ErrorMsg (message e0) []]. eexists.
       split; [reflexivity |]. simpl. split; [reflexivity |].
       split; [reflexivity |]. split; [right; right; eexists; reflexivity |].
       split; [discriminate | intros (p & t & Hp & _); discriminate]. }
  rewrite bind_lift.
  destruct (get_prop parsed "type") as [type | e0] eqn:Htype.
  2: { exists [ErrorMsg (message e0) []]. eexists.
       split; [reflexivity |]. simpl. split; [reflexivity |].
       split; [reflexivity |]. split; [right; right; eexists; reflexivity |].
       split; [discriminate | intros (p & t & Hp & Ht & _); congruence]. }
  destruct (is_frame type) eqn:Hframe.
  2: { exists []. eexists. split; [reflexivity |].
       split; [symmetry; apply app_nil_r |]. split; [reflexivity |].
       split; [left; reflexivity |].
       split; [intros _; exists parsed, type; auto | reflexivity]. }
  rewrite bind_lift.
  destruct (frame_payload parsed) as [payload | e0].
  2: { exists [ErrorMsg (message e0) []]. eexists.
       split; [reflexivity |]. simpl. split; [reflexivity |].
       split; [reflexivity |]. split; [right; right; eexists; reflexivity |].
       split; [discriminate | intros (p & t & Hp & Ht & Hf); congruence]. }
  rewrite bind_lift.
  destruct (Buffer_from env payload) as [buffer | e0].
  2: { exists [ErrorMsg (message e0) []]. eexists.
       split; [reflexivity |]. simpl. split; [reflexivity |].
       split; [reflexivity |]. split; [right; right; eexists; reflexivity |].
       split; [discriminate | intros (p & t & Hp & Ht & Hf); congruence]. }
  unfold bind at 1.
  pose proof (predictLeafDisease_ws_same env model buffer w) as [Hopen Hsent].
  destruct (predictLeafDisease env model buffer w) as [[r | e0] w2].
  - eexists [_], _. split; [reflexivity |]. simpl in *.
    rewrite Hsent. split; [reflexivity |]. split; [exact Hopen |].
    split; [right; left; eexists _, _, _, _; reflexivity |].
    split; [discriminate | intros (p & t & Hp & Ht & Hf); congruence].
  - exists [ErrorMsg (message e0) []]. eexists.
    split; [reflexivity |]. simpl in *. rewrite Hsent.
    split; [reflexivity |]. split; [exact Hopen |].
    split; [right; right; eexists; reflexivity |].
    split; [discriminate | intros (p & t & Hp & Ht & Hf); congruence].
Qed.

(** X8. Handling a message keeps the engine's invariant and gives back
    the live tensors and the scope stack it found, so the same holds for
    the next message. *)
Theorem on_message_keeps_engine model data w :
  fresh w ->
  fresh (snd (on_message env model data w)) /\
  live (snd (on_message env model data w)) = live w /\
  scopes (snd (on_message env model data w)) = scopes w.
Proof.
  intros Hfresh.
  pose proof (on_message_balanced model data w Hfresh) as Hsame.
  split; [eapply same_engine_fresh; eassumption |].
  destruct Hsame as (Hlive & Hscopes & _). split; assumption.
Qed.

End WithEnv.

Lemma frame_gets_one_prediction_witness :
  exists w',
    on_message (Sample.env None) (Some Sample.model4) "frame"
      (Sample.world0 ∅) = (Returned tt, w') /\
    ws_sent w'
    = [PredictionMsg
         (Predictor.predictions [1 # 10; 7 # 10; 1 # 10; 1 # 10]%Q)
         (mkPrediction (Some "Healthy") (7 # 10)) "70.00"
         "2025-01-01T00:00:00.000Z"] /\
    ws_open w' = true /\
    live w' = ∅.
Proof.
  apply (frame_gets_one_prediction (Sample.env None) Sample.model4 "frame"
           (JObj [("type", JStr "frame");
                  ("frameData", JStr "data:image/png;base64,eA==")])
           (Some (JStr "frame")) "eA==" 1 1 3
           (repeat (Sample.grey Byte.x78) 3)
           [[1 # 10; 7 # 10; 1 # 10; 1 # 10]%Q] (Sample.world0 ∅));
    try reflexivity.
  intros i Hi. exfalso. revert Hi. apply not_elem_of_empty.
Defined.

Lemma on_message_keeps_engine_witness :
  live (snd (on_message (Sample.env None) (Some Sample.model4) "frame"
               (Sample.world0 ∅))) = ∅.
Proof.
  apply (on_message_keeps_engine (Sample.env None) (Some Sample.model4)
           "frame" (Sample.world0 ∅)).
  intros i Hi. exfalso. revert Hi. apply not_elem_of_empty.
Defined.

End StreamExtras.

(** ** Responses of the HTTP servers *)

Module HttpExtras.
Import Tf TfOps Frame EngineFacts OpFacts Http HttpFacts HandlerFacts.

Section WithEnv.
Variable env : Env.

(** *** Running the shared steps *)

Lemma read_present {A} (rest : Buffer -> M A) p w content :
  files w !! p = Some content ->
  bind (Fs.readFileSync p) rest w
  = rest content (Fs.record_call (ReadFileSync p) w).
Proof. intros Hfile. unfold bind, Fs.readFileSync. rewrite Hfile. reflexivity. Qed.

Lemma read_absent {A} (rest : Buffer -> M A) p w :
  files w !! p = None ->
  bind (Fs.readFileSync p) rest w
  = (Thrown (Fs.ENOENT "open" p), Fs.record_call (ReadFileSync p) w).
Proof. intros Hfile. unfold bind, Fs.readFileSync. rewrite Hfile. reflexivity. Qed.

Lemma decode_error_stops {A} buffer (k : Tensor -> M A) w err :
  decode_image env buffer 3 = Thrown err ->
  fst (bind (preprocess env buffer) k w) = Thrown err.
Proof.
  intros Hdec. unfold preprocess, decodeImage.
  unfold bind, lift. rewrite Hdec. reflexivity.
Qed.

Lemma model_error_stops {A} model buffer (k : Tensor -> M A) w
    h wd c pixels err :
  decode_image env buffer 3 = Returned ([h; wd; c], pixels) ->
  (forall id, model (mkTensor id [1; 224; 224; c]
                       (div_data 255 (resize_plane h wd c 224 224 pixels 0)))
              = Thrown err) ->
  fst (bind (preprocess env buffer)
         (fun tensor => bind (guarded_predict model tensor) k) w)
  = Thrown (mkError ("Model prediction failed: " +:+ message err)).
Proof.
  intros Hdec Hmodel.
  destruct (PreprocessFacts.preprocess_still env buffer h wd c pixels w Hdec)
    as [w2 Hpre].
  erewrite bind_returned by exact Hpre.
  unfold guarded_predict, predict, try_catch, bind, lift.
  rewrite Hmodel. reflexivity.
Qed.

Lemma model_success_continues {A} model buffer (k : Tensor -> M A) w
    h wd c pixels rows :
  decode_image env buffer 3 = Returned ([h; wd; c], pixels) ->
  (forall id, model (mkTensor id [1; 224; 224; c]
                       (div_data 255 (resize_plane h wd c 224 224 pixels 0)))
              = Returned rows) ->
  exists id w',
    bind (preprocess env buffer)
      (fun tensor => bind (guarded_predict model tensor) k) w
    = k (mkTensor id [length rows; length (List.hd [] rows)] (concat rows)) w'.
Proof.
  intros Hdec Hmodel.
  destruct (PreprocessFacts.preprocess_still env buffer h wd c pixels w Hdec)
    as [w2 Hpre].
  erewrite bind_returned by exact Hpre.
  eexists _, _. unfold guarded_predict, predict, try_catch.
  unfold bind at 1 2. unfold lift. rewrite Hmodel. unfold makeTensor.
  reflexivity.
Qed.

(** The outcome of [tf.tidy(fn)] followed by a continuation. *)
Lemma fst_bind_tidy {A B} (fn : M A) (k : A -> M B) w :
  fst (bind (tidy fn) k w)
  = match fst (fn (snd (startScope w))) with
    | Returned a => fst (k a (snd (tidy fn w)))
    | Thrown e => Thrown e
    end.
Proof.
  unfold bind at 1. destruct (tidy_run fn w) as [Hfst _].
  destruct (tidy fn w) as [o w2]. simpl in *. subst o.
  destruct (fst (fn _)); reflexivity.
Qed.

(** *** What the inference part yields in each server *)

Section Outcomes.
Variable model : Model.
Variable p : string.
Variable w : World.

Lemma infer_absent :
  files w !! p = None ->
  fst (infer1 env model p w) = Thrown (Fs.ENOENT "open" p) /\
  fst (infer2 env model p w) = Thrown (Fs.ENOENT "open" p).
Proof.
  intros Hfile. unfold infer1, infer2.
  rewrite !read_absent by exact Hfile. split; reflexivity.
Qed.

Lemma infer_decode_error content err :
  files w !! p = Some content ->
  decode_image env content 3 = Thrown err ->
  fst (infer1 env model p w) = Thrown err /\
  fst (infer2 env model p w) = Thrown err.
Proof.
  intros Hfile Hdec. unfold infer1, infer2.
  rewrite !read_present with (content := content) by exact Hfile. split.
  - apply decode_error_stops, Hdec.
  - rewrite fst_bind_tidy, (decode_error_stops _ _ _ err Hdec). reflexivity.
Qed.

Lemma infer_model_error content h wd c pixels err :
  files w !! p = Some content ->
  decode_image env content 3 = Returned ([h; wd; c], pixels) ->
  (forall id, model (mkTensor id [1; 224; 224; c]
                       (div_data 255 (resize_plane h wd c 224 224 pixels 0)))
              = Thrown err) ->
  fst (infer1 env model p w)
  = Thrown (mkError ("Model prediction failed: " +:+ message err)) /\
  fst (infer2 env model p w)
  = Thrown (mkError ("Model prediction failed: " +:+ message err)).
Proof.
  intros Hfile Hdec Hmodel. unfold infer1, infer2.
  rewrite !read_present with (content := content) by exact Hfile. split.
  - eapply model_error_stops; eassumption.
  - rewrite fst_bind_tidy.
    rewrite (model_error_stops model content _ _ h wd c pixels err Hdec Hmodel).
    reflexivity.
Qed.

Lemma infer_one_row content h wd c pixels row :
  files w !! p = Some content ->
  decode_image env content 3 = Returned ([h; wd; c], pixels) ->
  (forall id, model (mkTensor id [1; 224; 224; c]
                       (div_data 255 (resize_plane h wd c 224 224 pixels 0)))
              = Returned [row]) ->
  exists w1 w2,
    fst (infer1 env model p w) = fst (respond env row w1) /\
    fst (infer2 env model p w) = fst (respond env row w2).
Proof.
  intros Hfile Hdec Hmodel. unfold infer1, infer2.
  rewrite !read_present with (content := content) by exact Hfile.
  destruct (model_success_continues model content
              (fun prediction =>
                 let! probabilities :=
                   match array_0 prediction with
                   | Some r => ret r
                   | None =>
                       throw (mkError
                         "Cannot read properties of undefined (reading 'length')")
                   end in
                 respond env probabilities)
              (Fs.record_call (ReadFileSync p) w) h wd c pixels [row]
              Hdec Hmodel) as (id1 & w1 & Hrun1).
  destruct (model_success_continues model content
              (fun prediction => ret (dataSync prediction))
              (snd (startScope (Fs.record_call (ReadFileSync p) w)))
              h wd c pixels [row] Hdec Hmodel) as (id2 & w2 & Hrun2).
  exists w1. eexists. split.
  - rewrite Hrun1. unfold array_0, bind, ret. simpl.
    rewrite app_nil_r, firstn_all. reflexivity.
  - rewrite fst_bind_tidy, Hrun2. simpl. rewrite app_nil_r. reflexivity.
Qed.

End Outcomes.

(** Both servers answer the request with [response]. *)
Definition answers (model : option Model) (file : option UploadedFile)
    (w : World) (response : Response) : Prop :=
  fst (Http1.post_predict env model file w) = Returned response /\
  fst (Http2.post_predict env model file w) = Returned response.

Lemma answers_from_infer model file w response :
  answer (fst (infer1 env model (path file) w)) = response ->
  answer (fst (infer2 env model (path file) w)) = response ->
  answers (Some model) (Some file) w response.
Proof.
  intros H1 H2. unfold answers, Http1.post_predict, Http2.post_predict.
  rewrite process1_finish, process2_finish, !finish_answer, H1, H2.
  split; reflexivity.
Qed.

(** X9. An upload that is on disk and decodes to a still image, on which
    the model returns one row of four scores, is answered 200 by both
    servers with the fixed version strings, the four labels, the scores
    labelled in order, their top prediction, image size 224 and the
    timestamp. *)
Theorem upload_answered_200 model file content h wd c pixels row w :
  files w !! path file = Some content ->
  decode_image env content 3 = Returned ([h; wd; c], pixels) ->
  (forall id, model (mkTensor id [1; 224; 224; c]
                       (div_data 255 (resize_plane h wd c 224 224 pixels 0)))
              = Returned [row]) ->
  length row = 4 ->
  answers (Some model) (Some file) w
    (mkResponse 200
       (ResultBody
          (mkPredictionResult "1.7.4" "2.4.10" "tm-my-image-model"
             ["Oidium Heveae"; "Healthy"; "Anthracnose"; "Leaf Spot"]
             (Predictor.predictions row)
             (Predictor.topPrediction (Predictor.predictions row))
             224 (now_iso env)))).
Proof.
  intros Hfile Hdec Hmodel Hlen.
  destruct (infer_one_row model (path file) w content h wd c pixels row
              Hfile Hdec Hmodel) as (w1 & w2 & H1 & H2).
  destruct (respond_accepts env row w1 Hlen) as (w1' & Hr1).
  destruct (respond_accepts env row w2 Hlen) as (w2' & Hr2).
  apply answers_from_infer.
  - rewrite H1, Hr1. reflexivity.
  - rewrite H2, Hr2. reflexivity.
Qed.

(** The 500 both servers send for an error message. *)
Definition failure (details : string) : Response :=
  mkResponse 500 (FailureBody "Prediction failed" details).

(** X10. What the [details] of a 500 say, in both servers: the [ENOENT]
    of [readFileSync] when the temporary file is not on disk; the
    decoder's own message, unchanged, when the image does not decode; the
    model's message behind [Model prediction failed: ] when the forward
    pass throws; and [Expected 4 output classes but got n] when the model
    returns one row of [n] scores, [n] other than 4. *)
Theorem upload_answered_500 model file w :
  (files w !! path file = None ->
   answers (Some model) (Some file) w
     (failure (message (Fs.ENOENT "open" (path file))))) /\
  (forall content err,
     files w !! path file = Some content ->
     decode_image env content 3 = Thrown err ->
     answers (Some model) (Some file) w (failure (message err))) /\
  (forall content h wd c pixels err,
     files w !! path file = Some content ->
     decode_image env content 3 = Returned ([h; wd; c], pixels) ->
     (forall id,
        model (mkTensor id [1; 224; 224; c]
                 (div_data 255 (resize_plane h wd c 224 224 pixels 0)))
        = Thrown err) ->
     answers (Some model) (Some file) w
       (failure ("Model prediction failed: " +:+ message err))) /\
  (forall content h wd c pixels row,
     files w !! path file = Some content ->
     decode_image env content 3 = Returned ([h; wd; c], pixels) ->
     (forall id,
        model (mkTensor id [1; 224; 224; c]
                 (div_data 255 (resize_plane h wd c 224 224 pixels 0)))
        = Returned [row]) ->
     length row <> 4 ->
     answers (Some model) (Some file) w
       (failure ("Expected 4 output classes but got "
                 +:+ pretty (length row)))).
Proof.
  split; [| split; [| split]].
  - intros Hfile.
    destruct (infer_absent model (path file) w Hfile) as [H1 H2].
    apply answers_from_infer; [rewrite H1 | rewrite H2]; reflexivity.
  - intros content err Hfile Hdec.
    destruct (infer_decode_error model (path file) w content err Hfile Hdec)
      as [H1 H2].
    apply answers_from_infer; [rewrite H1 | rewrite H2]; reflexivity.
  - intros content h wd c pixels err Hfile Hdec Hmodel.
    destruct (infer_model_error model (path file) w content h wd c pixels err
                Hfile Hdec Hmodel) as [H1 H2].
    apply answers_from_infer; [rewrite H1 | rewrite H2]; reflexivity.
  - intros content h wd c pixels row Hfile Hdec Hmodel Hlen.
    destruct (infer_one_row model (path file) w content h wd c pixels row
                Hfile Hdec Hmodel) as (w1 & w2 & H1 & H2).
    apply answers_from_infer.
    + rewrite H1, respond_rejects by exact Hlen. reflexivity.
    + rewrite H2, respond_rejects by exact Hlen. reflexivity.
Qed.

(** The status the two guards allow for a response. *)
Definition guarded (model : option Model) (file : option UploadedFile)
    (response : Response) : Prop :=
  match model, file with
  | None, _ => response = not_ready /\ status response = 503
  | Some _, None => response = no_image /\ status response = 400
  | Some _, Some _ =>
      (status response = 200 /\
       exists result, body response = ResultBody result) \/
      (status response = 500 /\
       exists details,
         body response = FailureBody "Prediction failed" details)
  end.

(** X11. Each server answers every request, and the two guards decide
    the status: 503 without a model whatever else the request holds, 400
    with a model and no file, and otherwise 200 with a result or a 500
    whose [error] is [Prediction failed]. *)
Theorem status_by_guards (model : option Model) (file : option UploadedFile) w :
  (exists response,
     fst (Http1.post_predict env model file w) = Returned response /\
     guarded model file response) /\
  (exists response,
     fst (Http2.post_predict env model file w) = Returned response /\
     guarded model file response).
Proof.
  destruct model as [model |];
    [| split; eexists; (split; [reflexivity | split; reflexivity])].
  destruct file as [file |];
    [| split; eexists; (split; [reflexivity | split; reflexivity])].
  assert (forall o : Outcome PredictionResult,
            guarded (Some model) (Some file) (answer o)) as Hanswer.
  { intros [result | err]; [left | right]; split; try reflexivity;
      eexists; reflexivity. }
  unfold Http1.post_predict, Http2.post_predict.
  rewrite process1_finish, process2_finish.
  split; eexists; (split; [apply finish_answer | apply Hanswer]).
Qed.

(** *** Tensors of the first server *)

Arguments resize_plane : simpl never.
Arguments div_data : simpl never.





(** X13. The second server keeps the engine's invariant and gives back
    the live tensors and the scope stack it found, on every path of every
    request. *)
Theorem second_server_keeps_engine model file w :
  fresh w ->
  let w' := snd (Http2.post_predict env model file w) in
  fresh w' /\ live w' = live w /\ scopes w' = scopes w.
Proof.
  intros Hfresh w'. subst w'. unfold Http2.post_predict.
  destruct model as [model |];
    [| split; [exact Hfresh | split; reflexivity]].
  destruct file as [file |];
    [| split; [exact Hfresh | split; reflexivity]].
  pose proof (process2_balanced env model (path file) w Hfresh) as Hsame.
  split; [eapply same_engine_fresh; eassumption |].
  destruct Hsame as (Hlive & Hscopes & _). split; assumption.
Qed.

End WithEnv.
End HttpExtras.

(** ** The two HTTP servers compared *)

Module Agreement.
Import Tf TfOps Frame EngineFacts OpFacts Http HttpFacts HandlerFacts.

(** Two worlds that differ at most in which tensors are live and in the
    scope stack. *)
Definition sim (w w' : World) : Prop :=
  next_id w = next_id w' /\ files w = files w' /\
  fs_calls w = fs_calls w' /\ console w = console w' /\
  ws_open w = ws_open w' /\ ws_sent w = ws_sent w'.

(** From such worlds the two computations end the same way, in such
    worlds. *)
Definition related {A} (m1 m2 : M A) : Prop :=
  forall w w', sim w w' ->
    fst (m1 w) = fst (m2 w') /\ sim (snd (m1 w)) (snd (m2 w')).

Lemma sim_refl w : sim w w.
Proof. repeat split; reflexivity. Qed.

Lemma related_ret {A} (a : A) : related (ret a) (ret a).
Proof. intros w w' H. split; [reflexivity | exact H]. Qed.

Lemma related_throw {A} (e : Error) : related (@throw A e) (throw e).
Proof. intros w w' H. split; [reflexivity | exact H]. Qed.

Lemma related_lift {A} (o : Outcome A) : related (lift o) (lift o).
Proof. intros w w' H. split; [reflexivity | exact H]. Qed.

Lemma related_bind {A B} (m1 m2 : M A) (k1 k2 : A -> M B) :
  related m1 m2 -> (forall a, related (k1 a) (k2 a)) ->
  related (bind m1 k1) (bind m2 k2).
Proof.
  intros Hm Hk w w' Hsim. unfold bind. destruct (Hm w w' Hsim) as [Ho Hs].
  destruct (m1 w) as [[a | e] w1], (m2 w') as [[a' | e'] w1'];
    simpl in *; try discriminate.
  - injection Ho as ->. apply Hk, Hs.
  - injection Ho as ->. split; [reflexivity | exact Hs].
Qed.

Lemma related_try {A} (b1 b2 : M A) (h1 h2 : Error -> M A) :
  related b1 b2 -> (forall e, related (h1 e) (h2 e)) ->
  related (try_catch b1 h1) (try_catch b2 h2).
Proof.
  intros Hb Hh w w' Hsim. unfold try_catch.
  destruct (Hb w w' Hsim) as [Ho Hs].
  destruct (b1 w) as [[a | e] w1], (b2 w') as [[a' | e'] w1'];
    simpl in *; try discriminate.
  - injection Ho as ->. split; [reflexivity | exact Hs].
  - injection Ho as ->. apply Hh, Hs.
Qed.

Lemma related_ext {A} (m1 m1' m2 : M A) :
  (forall w, m1 w = m1' w) -> related m1' m2 -> related m1 m2.
Proof. intros Heq H w w' Hsim. rewrite Heq. apply H, Hsim. Qed.

(** A primitive that reads and writes the compared fields only. *)
Ltac related_prim :=
  let w := fresh "w" in
  let w' := fresh "w'" in
  intros w w' (Hn & Hf & Hc & Ho & Hp & Hs);
  cbv beta delta [makeTensor startScope endScope console_error console_warn
    Fs.readFileSync Fs.existsSync Fs.unlink Fs.record_call sim];
  simpl; rewrite ?Hn, ?Hf, ?Hc, ?Ho, ?Hp, ?Hs;
  repeat case_match; simpl; rewrite ?Hn, ?Hf, ?Hc, ?Ho, ?Hp, ?Hs;
  repeat split; reflexivity.

Lemma related_makeTensor sh vs : related (makeTensor sh vs) (makeTensor sh vs).
Proof. related_prim. Qed.
Lemma related_startScope : related startScope startScope.
Proof. related_prim. Qed.
Lemma related_endScope keep : related (endScope keep) (endScope keep).
Proof. related_prim. Qed.
Lemma related_console line : related (console_error line) (console_error line).
Proof. related_prim. Qed.
Lemma related_warn line : related (console_warn line) (console_warn line).
Proof. related_prim. Qed.
Lemma related_readFileSync p : related (Fs.readFileSync p) (Fs.readFileSync p).
Proof. related_prim. Qed.
Lemma related_existsSync p : related (Fs.existsSync p) (Fs.existsSync p).
Proof. related_prim. Qed.
Lemma related_unlink env p : related (Fs.unlink env p) (Fs.unlink env p).
Proof. related_prim. Qed.

(** Wrapping one side in [tf.tidy] changes nothing that is compared. *)
Lemma related_tidy_r {A} (fn1 fn2 : M A) :
  related fn1 fn2 -> related fn1 (tidy fn2).
Proof.
  intros Hfn w w' Hsim. destruct (tidy_run fn2 w') as [-> ->].
  assert (sim w (snd (startScope w'))) as Hstart by exact Hsim.
  destruct (Hfn w _ Hstart) as [Ho Hs]. split; [exact Ho |].
  destruct Hs as (Hn & Hf & Hc & Hco & Hp & Hse).
  unfold endScope. destruct (scopes _); simpl; repeat split; assumption.
Qed.

Section WithEnv.
Variable env : Env.

Lemma related_div t c : related (div t c) (div t c).
Proof.
  unfold div. apply related_bind; [apply related_startScope |]. intros _.
  apply related_bind; [apply related_makeTensor |]. intros _.
  apply related_bind; [apply related_makeTensor |]. intros quotient.
  apply related_bind; [apply related_endScope |]. intros _.
  apply related_ret.
Qed.

Lemma related_preprocess buffer :
  related (preprocess env buffer) (preprocess env buffer).
Proof.
  unfold preprocess, decodeImage, resizeNearestNeighbor, expandDims.
  apply related_bind.
  { apply related_bind; [apply related_lift |]. intros d.
    apply related_makeTensor. }
  intros decoded. apply related_bind.
  { destruct (resize_data _ _ _ _) as [[sh vs] |].
    - apply related_makeTensor.
    - apply related_throw. }
  intros resized. apply related_bind; [apply related_div |].
  intros scaled. apply related_makeTensor.
Qed.

Lemma related_respond probabilities :
  related (respond env probabilities) (respond env probabilities).
Proof.
  unfold respond. apply related_bind.
  { destruct (bool_decide _); [apply related_throw | apply related_ret]. }
  intros _. apply related_bind.
  { destruct (Qlt_le_dec _ _); [apply related_warn | apply related_ret]. }
  intros _. apply related_ret.
Qed.

Lemma related_delete_uploaded p :
  related (delete_uploaded env p) (delete_uploaded env p).
Proof.
  unfold delete_uploaded. apply related_try; [apply related_unlink |].
  intros err. apply related_console.
Qed.

Lemma related_on_failure p err :
  related (on_failure env p err) (on_failure env p err).
Proof.
  unfold on_failure. apply related_bind; [apply related_console |].
  intros _. apply related_bind; [apply related_existsSync |].
  intros present. apply related_bind; [| intros _; apply related_ret].
  destruct present; [| apply related_ret].
  apply related_try; [apply related_unlink |].
  intros err2. apply related_console.
Qed.

Lemma related_finish p infer infer' :
  related infer infer' ->
  related (finish env p infer) (finish env p infer').
Proof.
  intros Hinfer. unfold finish. apply related_try.
  - apply related_bind; [exact Hinfer |]. intros response.
    apply related_bind; [apply related_delete_uploaded |].
    intros _. apply related_ret.
  - intros err. apply related_on_failure.
Qed.

(** A model whose output always has one row. *)
Definition one_row (model : Model) : Prop :=
  forall tensor rows, model tensor = Returned rows -> exists row, rows = [row].

(** Reading the first row of the output and reading the flat data give
    the same scores when the output has one row. *)
Lemma related_scores model tensor :
  one_row model ->
  related
    (let! prediction := guarded_predict model tensor in
     match array_0 prediction with
     | Some row => ret row
     | None =>
         throw (mkError
                  "Cannot read properties of undefined (reading 'length')")
     end)
    (let! prediction := guarded_predict model tensor in
     ret (dataSync prediction)).
Proof.
  intros Hone w w' Hsim.
  unfold guarded_predict, predict, try_catch, bind, lift.
  destruct (model tensor) as [rows | err] eqn:Hmodel.
  - destruct (Hone tensor rows Hmodel) as [row ->].
    unfold makeTensor, array_0, dataSync, ret. simpl.
    rewrite app_nil_r, firstn_all. split; [reflexivity |].
    destruct Hsim as (Hn & Hf & Hc & Ho & Hp & Hs).
    repeat split; simpl; congruence.
  - split; [reflexivity | exact Hsim].
Qed.

Lemma related_infer model p :
  one_row model -> related (infer1 env model p) (infer2 env model p).
Proof.
  intros Hone.
  apply related_ext with
    (m1' := let! buffer := Fs.readFileSync p in
            let! probabilities :=
              (let! tensor := preprocess env buffer in
               let! prediction := guarded_predict model tensor in
               match array_0 prediction with
               | Some row => ret row
               | None =>
                   throw (mkError
                     "Cannot read properties of undefined (reading 'length')")
               end) in
            respond env probabilities).
  { intros w. unfold infer1, bind.
    destruct (Fs.readFileSync p w) as [[buffer | e] w1]; [| reflexivity].
    destruct (preprocess env buffer w1) as [[tensor | e] w2]; [| reflexivity].
    destruct (guarded_predict model tensor w2) as [[prediction | e] w3];
      [| reflexivity].
    destruct (array_0 prediction) as [row |]; reflexivity. }
  unfold infer2. apply related_bind; [apply related_readFileSync |].
  intros buffer. apply related_bind; [| intros row; apply related_respond].
  apply related_tidy_r. apply related_bind; [apply related_preprocess |].
  intros tensor. apply related_scores, Hone.
Qed.

(** X14. With a model whose output has one row, the two servers cannot
    be told apart from outside: from the same world they give the same
    response and leave the same files, the same [fs] calls and the same
    console lines.  (Only the live tensors differ.) *)
Theorem servers_agree (model : option Model) (file : option UploadedFile) w :
  (forall m, model = Some m -> one_row m) ->
  let run1 := Http1.post_predict env model file w in
  let run2 := Http2.post_predict env model file w in
  fst run1 = fst run2 /\
  files (snd run1) = files (snd run2) /\
  fs_calls (snd run1) = fs_calls (snd run2) /\
  console (snd run1) = console (snd run2).
Proof.
  intros Hone run1 run2. subst run1 run2.
  unfold Http1.post_predict, Http2.post_predict.
  destruct model as [model |]; [| repeat split; reflexivity].
  destruct file as [file |]; [| repeat split; reflexivity].
  rewrite process1_finish, process2_finish.
  destruct (related_finish (path file) _ _
              (related_infer model (path file) (Hone model eq_refl))
              w w (sim_refl w)) as (Hfst & _ & Hf & Hc & Ho & _).
  repeat split; assumption.
Qed.

End WithEnv.

Lemma servers_agree_witness :
  fst (Http1.post_predict (Sample.env None) (Some Sample.model3)
         (Some Sample.upload) (Sample.world0 Sample.stored))
  = fst (Http2.post_predict (Sample.env None) (Some Sample.model3)
           (Some Sample.upload) (Sample.world0 Sample.stored)).
Proof.
  apply (servers_agree (Sample.env None) (Some Sample.model3)
           (Some Sample.upload) (Sample.world0 Sample.stored)).
  intros m [= <-] tensor rows [= <-]. eexists. reflexivity.
Defined.

End Agreement.

(** ** The upload filter *)

Module Upload.

(** [fileFilter: (req, file, cb) => ...] of the upload middleware's
    options, as the pair handed to [cb]: the error, if any, and whether
    the file is accepted. *)
Definition fileFilter (mimetype : string) : option Error * bool :=
  if String.prefix "image/" mimetype
  then (None, true)
  else (Some (mkError "Only image files are allowed!"), false).

Lemma prefix_append (p s : string) :
  String.prefix p s = true <-> exists rest, s = p +:+ rest.
Proof.
  revert s. induction p as [| a p IH]; intros s; simpl.
  - split; [intros _; exists s; reflexivity |].
    intros _. destruct s; reflexivity.
  - destruct s as [| b s]; [split; [discriminate | intros [rest [=]]] |].
    simpl. destruct (Ascii.ascii_dec a b) as [<- | Hne].
    + rewrite IH. split; intros [rest H]; exists rest.
      * rewrite H. reflexivity.
      * injection H as H. exact H.
    + split; [discriminate | intros [rest [= H _]]; congruence].
Qed.

(** X15. The filter accepts a file exactly when its MIME type begins
    with [image/] (whatever follows, also nothing); every other type is
    refused with the error [Only image files are allowed!]. *)
Theorem fileFilter_accepts_images (mimetype : string) :
  (fileFilter mimetype = (None, true) <->
   exists subtype, mimetype = "image/" +:+ subtype) /\
  (fileFilter mimetype <> (None, true) ->
   fileFilter mimetype
   = (Some (mkError "Only image files are allowed!"), false)).
Proof.
  unfold fileFilter. rewrite <- prefix_append.
  destruct (String.prefix "image/" mimetype); split.
  - split; reflexivity.
  - intros H. contradiction.
  - split; discriminate.
  - reflexivity.
Qed.

Lemma fileFilter_accepts_images_witness :
  fileFilter "application/pdf"
  = (Some (mkError "Only image files are allowed!"), false).
Proof.
  apply (fileFilter_accepts_images "application/pdf"). discriminate.
Defined.

End Upload.

(** ** The verification endpoint *)

Module Verification.

(** A value of [req.query]: a string, or an array or object when the key
    is repeated or has brackets. *)
Inductive QueryValue :=
| QString (text : string)
| QArray (items : list QueryValue)
| QObject (fields : list (string * QueryValue)).

(** [!value] for a query parameter that may be absent: only [undefined]
    and the empty string are falsy. *)
Definition falsy (value : option QueryValue) : bool :=
  match value with
  | None => true
  | Some (QString "") => true
  | Some _ => false
  end.

Section WithProvider.
(** What [account.updateVerification] resolves to. *)
Variable Data : Type.
(** [new Date(value).getTime()], [None] for an invalid date *)
Variable date_of : QueryValue -> option Z.
(** [new Date().getTime()] *)
Variable now : Z.
(** [account.updateVerification(userId, secret)] *)
Variable updateVerification : QueryValue -> QueryValue -> Outcome Data.

(** [{ success, message }] or [{ success, data }] *)
Inductive Body :=
| Failure (message : string)
| Success (data : Data).

Record Response := mkResponse { status : nat; body : Body }.

(** What the handler can change: the calls made to the identity provider
    and the error console. *)
Record State := mkState {
  calls : list (QueryValue * QueryValue);
  errors : list string
}.

(** [expire && new Date(expire) < new Date()]: a comparison with an
    invalid date is false. *)
Definition expired (expire : option QueryValue) : bool :=
  match expire with
  | Some value =>
      negb (falsy expire) &&
      match date_of value with
      | Some time => (time <? now)%Z
      | None => false
      end
  | None => false
  end.

(** [error.message || "Verification failed"] *)
Definition reason (error : Error) : string :=
  if String.eqb (message error) "" then "Verification failed"
  else message error.

(** [app.get("/verification", async (req, res) => ...)] on
    [req.query = { userId, secret, expire }].  Nothing before the call to
    the provider can throw, so the [catch] block is reached from that call
    only. *)
Definition get_verification (userId secret expire : option QueryValue)
    (s : State) : Response * State :=
  match userId, secret with
  | Some user, Some key =>
      if falsy userId || falsy secret then
        (mkResponse 400 (Failure "Missing required parameters"), s)
      else if expired expire then
        (mkResponse 400 (Failure "Verification link has expired"), s)
      else
        let s' := mkState (calls s ++ [(user, key)]) (errors s) in
        match updateVerification user key with
        | Returned result => (mkResponse 200 (Success result), s')
        | Thrown error =>
            (mkResponse 400 (Failure (reason error)),
             mkState (calls s')
                     (errors s' ++ ["Verification error: " +:+ message error]))
        end
  | _, _ => (mkResponse 400 (Failure "Missing required parameters"), s)
  end.

(** X16. A request without a [userId] or a [secret] (absent or empty) is
    answered 400 [Missing required parameters], and a request with both
    whose [expire] is a valid date before now is answered 400
    [Verification link has expired]; in both cases the identity provider
    is not called and nothing is logged. *)
Theorem verification_rejects_before_calling userId secret expire s :
  (falsy userId = true \/ falsy secret = true ->
   get_verification userId secret expire s
   = (mkResponse 400 (Failure "Missing required parameters"), s)) /\
  (falsy userId = false -> falsy secret = false ->
   (exists value time,
      expire = Some value /\ falsy expire = false /\
      date_of value = Some time /\ (time < now)%Z) ->
   get_verification userId secret expire s
   = (mkResponse 400 (Failure "Verification link has expired"), s)).
Proof.
  unfold get_verification. split.
  - intros H. destruct userId as [user |], secret as [key |]; try reflexivity.
    destruct H as [-> | ->]; [reflexivity |].
    rewrite orb_true_r. reflexivity.
  - intros Hu Hs (value & time & -> & Hexp & Hdate & Hlt).
    destruct userId as [user |]; [| discriminate].
    destruct secret as [key |]; [| discriminate].
    rewrite Hu, Hs. simpl orb. cbv iota.
    unfold expired. rewrite Hexp, Hdate. simpl.
    apply Z.ltb_lt in Hlt. rewrite Hlt. reflexivity.
Qed.

(** X17. Every other request reaches the identity provider exactly once,
    with the [userId] and [secret] of the query: when [expire] is absent
    or empty, when it is not a valid date, and when it is a date not
    before now.  The answer mirrors the provider: 200 with its data, or
    400 with its error message ([Verification failed] when that message is
    empty) and one line on the error console. *)
Theorem verification_calls_once user key expire s :
  falsy (Some user) = false -> falsy (Some key) = false ->
  (falsy expire = true \/
   (exists value, expire = Some value /\
      (date_of value = None \/
       exists time, date_of value = Some time /\ (now <= time)%Z))) ->
  let run := get_verification (Some user) (Some key) expire s in
  calls (snd run) = (calls s ++ [(user, key)])%list /\
  match updateVerification user key with
  | Returned result =>
      fst run = mkResponse 200 (Success result) /\ errors (snd run) = errors s
  | Thrown error =>
      fst run = mkResponse 400 (Failure (reason error)) /\
      errors (snd run)
      = (errors s ++ ["Verification error: " +:+ message error])%list /\
      (message error = "" -> reason error = "Verification failed") /\
      (message error <> "" -> reason error = message error)
  end.
Proof.
  intros Hu Hs Hexpire run. subst run. unfold get_verification.
  rewrite Hu, Hs. simpl orb. cbv iota.
  assert (expired expire = false) as ->.
  { unfold expired. destruct Hexpire as [Hfalsy | (value & -> & Hdate)].
    - destruct expire; [rewrite Hfalsy |]; reflexivity.
    - destruct Hdate as [-> | (time & -> & Hle)].
      + apply andb_false_r.
      + apply Z.ltb_ge in Hle. rewrite Hle. apply andb_false_r. }
  destruct (updateVerification user key) as [result | error]; simpl.
  - split; [reflexivity | split; reflexivity].
  - split; [reflexivity |]. split; [reflexivity |]. split; [reflexivity |].
    unfold reason. split.
    + intros ->. reflexivity.
    + intros Hne. destruct (String.eqb_spec (message error) "");
        [contradiction | reflexivity].
Qed.

(** X18. The endpoint always answers, with status 200 or 400, and makes
    at most one call to the identity provider; the status is 200 exactly
    when that call was made and succeeded, and every 400 carries a
    non-empty message. *)
Theorem verification_status userId secret expire s :
  let run := get_verification userId secret expire s in
  (exists made, calls (snd run) = (calls s ++ made)%list /\ length made <= 1) /\
  (status (fst run) = 200 \/ status (fst run) = 400) /\
  (status (fst run) = 200 <->
   exists user key result,
     calls (snd run) = (calls s ++ [(user, key)])%list /\
     updateVerification user key = Returned result /\
     body (fst run) = Success result) /\
  (status (fst run) = 400 ->
   exists text, body (fst run) = Failure text /\ text <> "").
Proof.
  intros run. subst run. unfold get_verification.
  assert (forall made : list (QueryValue * QueryValue),
            calls s = (calls s ++ made)%list -> made = []) as Hnil.
  { intros made H. rewrite <- (app_nil_r (calls s)) in H at 1.
    apply app_inv_head in H. symmetry. exact H. }
  assert (forall error, reason error <> "") as Hreason.
  { intros error. unfold reason.
    destruct (String.eqb_spec (message error) ""); [discriminate | assumption]. }
  assert (forall text : string, text <> "" ->
            let run := (mkResponse 400 (Failure text), s) in
            (exists made,
               calls (snd run) = (calls s ++ made)%list /\ length made <= 1) /\
            (status (fst run) = 200 \/ status (fst run) = 400) /\
            (status (fst run) = 200 <->
             exists user key result,
               calls (snd run) = (calls s ++ [(user, key)])%list /\
               updateVerification user key = Returned result /\
               body (fst run) = Success result) /\
            (status (fst run) = 400 ->
             exists text', body (fst run) = Failure text' /\ text' <> ""))
    as Hrejected.
  { intros text Htext. simpl.
    split; [exists []; split; [symmetry; apply app_nil_r | simpl; lia] |].
    split; [right; reflexivity |].
    split; [split; [discriminate |];
            intros (u & k & r & Hc & _); apply Hnil in Hc; discriminate |].
    intros _. exists text. split; [reflexivity | exact Htext]. }
  destruct userId as [user |]; [| apply Hrejected; discriminate].
  destruct secret as [key |]; [| apply Hrejected; discriminate].
  destruct (falsy (Some user) || falsy (Some key));
    [apply Hrejected; discriminate |].
  destruct (expired expire); [apply Hrejected; discriminate |].
  destruct (updateVerification user key) as [result | error] eqn:Hcall; simpl.
  - split; [exists [(user, key)]; split; [reflexivity | simpl; lia] |].
    split; [left; reflexivity |].
    split; [split; [intros _; exists user, key, result; auto | reflexivity] |].
    discriminate.
  - split; [exists [(user, key)]; split; [reflexivity | simpl; lia] |].
    split; [right; reflexivity |].
    split; [split; [discriminate |] |].
    + intros (u & k & r & Hc & Hr & _).
      apply app_inv_head in Hc. injection Hc as <- <-. congruence.
    + intros _. eexists. split; [reflexivity | apply Hreason].
Qed.

End WithProvider.

(** A provider that knows one user, and a clock. *)
Definition sample_date (value : QueryValue) : option Z :=
  match value with
  | QString "2020-01-01" => Some 1577836800000%Z
  | QString "2999-01-01" => Some 32472144000000%Z
  | _ => None
  end.

Definition sample_update (user key : QueryValue) : Outcome string :=
  match user, key with
  | QString "u1", QString "s1" => Returned "verified"
  | _, _ => Thrown (mkError "")
  end.

Lemma verification_rejects_before_calling_witness :
  get_verification string sample_date 1700000000000%Z sample_update
    None (Some (QString "s1")) None (mkState [] [])
  = (mkResponse string 400 (Failure string "Missing required parameters"),
     mkState [] []) /\
  get_verification string sample_date 1700000000000%Z sample_update
    (Some (QString "u1")) (Some (QString "s1"))
    (Some (QString "2020-01-01")) (mkState [] [])
  = (mkResponse string 400 (Failure string "Verification link has expired"),
     mkState [] []).
Proof.
  split.
  - apply (verification_rejects_before_calling string sample_date
             1700000000000%Z sample_update None (Some (QString "s1")) None
             (mkState [] [])).
    left. reflexivity.
  - apply (verification_rejects_before_calling string sample_date
             1700000000000%Z sample_update (Some (QString "u1"))
             (Some (QString "s1")) (Some (QString "2020-01-01"))
             (mkState [] [])); try reflexivity.
    exists (QString "2020-01-01"), 1577836800000%Z.
    repeat split; reflexivity.
Defined.

Lemma verification_calls_once_witness :
  calls (snd (get_verification string sample_date 1700000000000%Z
                sample_update (Some (QString "u2")) (Some (QString "s1"))
                (Some (QString "soon")) (mkState [] [])))
  = [(QString "u2", QString "s1")].
Proof.
  apply (verification_calls_once string sample_date 1700000000000%Z
           sample_update (QString "u2") (QString "s1")
           (Some (QString "soon")) (mkState [] [])); try reflexivity.
  right. exists (QString "soon"). split; [reflexivity |]. left. reflexivity.
Defined.

End Verification.

(** ** Startup and the health probe *)

Module Startup.
Import Frame Stream StreamFacts.

(** The startup block of each server,
    [try { model = await tf.loadLayersModel(...) } catch (err)
    { console.error(...) }], given what the loader does; the result is the
    module variable [model] as the block leaves it.  (Reading the shapes
    of a loaded model for the log does not throw.) *)
Definition load (loader : Outcome Model) : M (option Model) :=
  try_catch (let! loaded := lift loader in ret (Some loaded))
            (fun err =>
               do! console_error ("Failed to load model: " +:+ message err) in
               ret None).

(** The body of [GET /health] in the WebSocket server. *)
Record Health := mkHealth {
  status : string;
  modelLoaded : bool;
  connectedClients : nat
}.

(** [{ status: "ok", modelLoaded: !!model,
       connectedClients: wss.clients.size }] *)
Definition health (model : option Model) (clients : nat) : Health :=
  mkHealth "ok" (bool_decide (is_Some model)) clients.

(** X19. When loading the model fails the process goes on: the startup
    block returns normally after one line on the error console, with the
    model unset and everything else as it was.  From then on the health
    probe reports [modelLoaded: false], both HTTP servers answer 503 to any
    upload, and a frame that carries a payload is answered with the error
    [Model not loaded yet], without any tensor being created. *)
Theorem failed_load_keeps_serving env err w :
  exists w1,
    load (Thrown err) w = (Returned None, w1) /\
    console w1 = (console w ++ ["Failed to load model: " +:+ message err])%list /\
    tf_same w w1 /\ fs_same w w1 /\ ws_same w w1 /\
    (forall clients, modelLoaded (health None clients) = false) /\
    (forall file,
       Http1.post_predict env None file w1 = (Returned Http.not_ready, w1) /\
       Http2.post_predict env None file w1 = (Returned Http.not_ready, w1)) /\
    (forall data parsed type payload,
       JSON_parse env data = Returned parsed ->
       get_prop parsed "type" = Returned type ->
       is_frame type = true ->
       frame_payload parsed = Returned (Some payload) ->
       exists w2,
         on_message env None data w1 = (Returned tt, w2) /\
         ws_sent w2 = (ws_sent w ++ [ErrorMsg "Model not loaded yet" []])%list /\
         ws_open w2 = ws_open w /\
         tf_same w w2).
Proof.
  eexists. split; [reflexivity |]. simpl.
  split; [reflexivity |]. split; [repeat split |].
  split; [repeat split |]. split; [repeat split |].
  split; [reflexivity |]. split; [intros file; split; reflexivity |].
  intros data parsed type payload Hparse Htype Hframe Hpayload.
  match goal with |- context [on_message env None data ?w1] =>
    assert (handle env None data w1
            = (Thrown (mkError "Model not loaded yet"), w1)) as Hrun
  end.
  { unfold handle.
    rewrite bind_lift, Hparse, bind_lift, Htype, Hframe, bind_lift, Hpayload.
    rewrite bind_lift. reflexivity. }
  destruct (on_message_catches env None data _ _ _ Hrun)
    as (w2 & Hmsg & Hsent & Hopen & Hl & Hn & Hs & _).
  exists w2. split; [exact Hmsg |]. split; [exact Hsent |].
  split; [exact Hopen |]. repeat split; assumption.
Qed.

Lemma failed_load_keeps_serving_witness :
  exists w1 w2,
    load (Thrown (mkError "model.json not found")) (Sample.world0 ∅)
    = (Returned None, w1) /\
    on_message (Sample.env None) None "frame" w1 = (Returned tt, w2) /\
    ws_sent w2 = [ErrorMsg "Model not loaded yet" []].
Proof.
  destruct (failed_load_keeps_serving (Sample.env None)
              (mkError "model.json not found") (Sample.world0 ∅))
    as (w1 & Hload & _ & _ & _ & _ & _ & _ & Hframe).
  destruct (Hframe "frame"
              (JObj [("type", JStr "frame");
                     ("frameData", JStr "data:image/png;base64,eA==")])
              (Some (JStr "frame")) "eA==" eq_refl eq_refl eq_refl eq_refl)
    as (w2 & Hmsg & Hsent & _).
  exists w1, w2. split; [exact Hload |]. split; [exact Hmsg | exact Hsent].
Defined.

End Startup.

(** ** The properties above on the sample world *)

Module Instances.
Import Tf TfOps EngineFacts Http.

Lemma sample_fresh fs : fresh (Sample.world0 fs).
Proof. intros i Hi. exfalso. revert Hi. apply not_elem_of_empty. Qed.

Lemma predictions_aligned_witness :
  Predictor.predictions [1 # 10; 7 # 10]%Q !! 1
  = Some (mkPrediction (Some "Healthy") (7 # 10)) /\
  className (mkPrediction (Some "Healthy") (7 # 10))
  = Predictor.classNames !! 1.
Proof.
  split; [reflexivity |].
  apply (PredictorExtras.predictions_aligned [1 # 10; 7 # 10]%Q).
  reflexivity.
Defined.

Lemma upload_answered_200_witness :
  HttpExtras.answers (Sample.env None) (Some Sample.model4)
    (Some Sample.upload) (Sample.world0 Sample.stored)
    (mkResponse 200
       (ResultBody
          (mkPredictionResult "1.7.4" "2.4.10" "tm-my-image-model"
             ["Oidium Heveae"; "Healthy"; "Anthracnose"; "Leaf Spot"]
             (Predictor.predictions [1 # 10; 7 # 10; 1 # 10; 1 # 10]%Q)
             (Predictor.topPrediction
                (Predictor.predictions [1 # 10; 7 # 10; 1 # 10; 1 # 10]%Q))
             224 "2025-01-01T00:00:00.000Z"))).
Proof.
  apply (HttpExtras.upload_answered_200 (Sample.env None) Sample.model4
           Sample.upload [Byte.x78] 1 1 3 (repeat (Sample.grey Byte.x78) 3)
           [1 # 10; 7 # 10; 1 # 10; 1 # 10]%Q (Sample.world0 Sample.stored));
    reflexivity.
Defined.

Lemma upload_answered_500_witness :
  HttpExtras.answers (Sample.env None) (Some Sample.broken_model)
    (Some Sample.upload) (Sample.world0 ∅)
    (HttpExtras.failure
       "ENOENT: no such file or directory, open 'uploads/3f2a'") /\
  HttpExtras.answers (Sample.env None) (Some Sample.broken_model)
    (Some Sample.upload) (Sample.world0 Sample.stored)
    (HttpExtras.failure
       "Model prediction failed: expected input to have shape [null,224,224,3]") /\
  HttpExtras.answers (Sample.env None) (Some Sample.model3)
    (Some Sample.upload) (Sample.world0 Sample.stored)
    (HttpExtras.failure "Expected 4 output classes but got 3").
Proof.
  split; [| split].
  - destruct (HttpExtras.upload_answered_500 (Sample.env None)
                Sample.broken_model Sample.upload (Sample.world0 ∅))
      as (Habsent & _).
    apply Habsent. reflexivity.
  - destruct (HttpExtras.upload_answered_500 (Sample.env None)
                Sample.broken_model Sample.upload
                (Sample.world0 Sample.stored))
      as (_ & _ & Hmodel & _).
    apply (Hmodel [Byte.x78] 1 1 3 (repeat (Sample.grey Byte.x78) 3)
             (mkError "expected input to have shape [null,224,224,3]"));
      reflexivity.
  - destruct (HttpExtras.upload_answered_500 (Sample.env None)
                Sample.model3 Sample.upload (Sample.world0 Sample.stored))
      as (_ & _ & _ & Hlength).
    apply (Hlength [Byte.x78] 1 1 3 (repeat (Sample.grey Byte.x78) 3)
             [2 # 10; 5 # 10; 3 # 10]%Q); try reflexivity.
    discriminate.
Defined.


Lemma second_server_keeps_engine_witness :
  live (snd (Http2.post_predict (Sample.env None) (Some Sample.model4)
               (Some Sample.upload) (Sample.world0 Sample.stored)))
  = live (Sample.world0 Sample.stored).
Proof.
  apply (HttpExtras.second_server_keeps_engine (Sample.env None)
           (Some Sample.model4) (Some Sample.upload)
           (Sample.world0 Sample.stored)).
  apply sample_fresh.
Defined.

Lemma verification_status_witness :
  Verification.status string
    (fst (Verification.get_verification string Verification.sample_date
            1700000000000%Z Verification.sample_update
            (Some (Verification.QString "u1"))
            (Some (Verification.QString "s1")) None
            (Verification.mkState [] []))) = 200.
Proof.
  apply (Verification.verification_status string Verification.sample_date
           1700000000000%Z Verification.sample_update
           (Some (Verification.QString "u1"))
           (Some (Verification.QString "s1")) None
           (Verification.mkState [] [])).
  exists (Verification.QString "u1"), (Verification.QString "s1"), "verified".
  repeat split; reflexivity.
Defined.

End Instances.
